(** * plane/app/views/base.py: the shared request-handling base layer

    A shallow embedding of [TimezoneMixin], [BaseViewSet] and [BaseAPIView]
    and of the parts of the Python runtime they call ([str.replace],
    [str.strip], [str.split], [int(s, 16)], [uuid.UUID]), followed by the
    properties of identifier resolution, locale activation, error
    classification, the dispatch pipeline and the query accessors.

    Strings are sequences of code points below 256 ([ascii]); exceptions are
    values carrying the method resolution order of their class, so that
    [isinstance] is membership in that list. *)

From Stdlib Require Import ZArith Ascii String List Lia.
From stdpp Require Import base option list strings gmap.

Open Scope string_scope.
Open Scope list_scope.

(** ** Python built-ins used by the module *)

Module Py.

Abbreviation chars := (list ascii).

Definition str_chars (s : string) : chars := list_ascii_of_string s.
Definition chars_str (l : chars) : string := string_of_list_ascii l.

Definition char_in (c : ascii) (set : chars) : bool :=
  existsb (Ascii.eqb c) set.

(** [s.startswith(pat)] *)
Fixpoint startswith (pat s : chars) : bool :=
  match pat, s with
  | [], _ => true
  | p :: pat', c :: s' => Ascii.eqb p c && startswith pat' s'
  | _ :: _, [] => false
  end.

(** [s.replace(old, new)] for a non-empty [old]: the scan goes left to
    right and matches do not overlap; [skip] counts the characters of the
    current match that are still to be consumed. *)
Fixpoint replace_scan (skip : nat) (old new s : chars) : chars :=
  match s with
  | [] => []
  | c :: s' =>
      match skip with
      | S k => replace_scan k old new s'
      | O =>
          if startswith old s
          then new ++ replace_scan (length old - 1) old new s'
          else c :: replace_scan 0 old new s'
      end
  end.

(** [s.replace(old, new)]; an empty [old] matches between all characters. *)
Definition replace (old new s : chars) : chars :=
  match old with
  | [] => new ++ flat_map (fun c => c :: new) s
  | _ :: _ => replace_scan 0 old new s
  end.

(** [s.lstrip(set)], [s.rstrip(set)], [s.strip(set)] *)
Fixpoint lstrip (set s : chars) : chars :=
  match s with
  | [] => []
  | c :: s' => if char_in c set then lstrip set s' else s
  end.

Definition rstrip (set s : chars) : chars := rev (lstrip set (rev s)).

Definition strip (set s : chars) : chars := rstrip set (lstrip set s).

(** [s.split(sep)] for a one-character separator: never the empty list,
    [''.split(',') == ['']]. *)
Fixpoint split (sep : ascii) (s : chars) : list chars :=
  match s with
  | [] => [[]]
  | c :: s' =>
      if Ascii.eqb c sep then [] :: split sep s'
      else match split sep s' with
           | [] => [[c]]
           | w :: ws => (c :: w) :: ws
           end
  end.

(** [sep.join(parts)] *)
Fixpoint join (sep : ascii) (parts : list chars) : chars :=
  match parts with
  | [] => []
  | [w] => w
  | w :: ws => w ++ sep :: join sep ws
  end.

(** White space as [int()] sees it in a string of code points below 256:
    the C-locale blanks, and NEL and NBSP, which the conversion of a
    non-ASCII string turns into blanks. *)
Definition isspace (c : ascii) : bool :=
  let n := nat_of_ascii c in
  (((9 <=? n) && (n <=? 13)) || (n =? 32) || (n =? 133) || (n =? 160))%nat.

(** Value of a character as a digit in bases up to 36. *)
Definition digit_value (c : ascii) : option Z :=
  let n := nat_of_ascii c in
  if ((48 <=? n) && (n <=? 57))%nat then Some (Z.of_nat n - 48)%Z
  else if ((97 <=? n) && (n <=? 122))%nat then Some (Z.of_nat n - 87)%Z
  else if ((65 <=? n) && (n <=? 90))%nat then Some (Z.of_nat n - 55)%Z
  else None.

Definition hex_value (c : ascii) : option Z :=
  match digit_value c with
  | Some v => if (v <? 16)%Z then Some v else None
  | None => None
  end.

Definition is_hex (c : ascii) : bool :=
  match hex_value c with Some _ => true | None => false end.

(** The digit loop of [int(s, 16)]: hexadecimal digits with single
    underscores between them.  [prev_us] says that the previous character
    was an underscore, [seen] that a digit was read.  Returns the value
    and the unread rest, or [None] for a doubled or trailing underscore
    or when no digit was read. *)
Fixpoint hex_digits (prev_us seen : bool) (acc : Z) (s : chars)
  : option (Z * chars) :=
  let stop :=
    if prev_us || negb seen then None else Some (acc, s) in
  match s with
  | [] => stop
  | c :: s' =>
      if Ascii.eqb c "_" then
        if prev_us then None else hex_digits true seen acc s'
      else
        match hex_value c with
        | Some v => hex_digits false true (16 * acc + v)%Z s'
        | None => stop
        end
  end.

Fixpoint skip_space (s : chars) : chars :=
  match s with
  | [] => []
  | c :: s' => if isspace c then skip_space s' else s
  end.

(** [int(s, 16)]; [None] stands for [ValueError].  Leading blanks, an
    optional sign, an optional [0x] prefix (one underscore may follow
    it), the digits, trailing blanks. *)
Definition int16 (s : chars) : option Z :=
  let s1 := skip_space s in
  let '(sign, s2) :=
    match s1 with
    | c :: r =>
        if Ascii.eqb c "+" then (1%Z, r)
        else if Ascii.eqb c "-" then ((-1)%Z, r)
        else (1%Z, s1)
    | [] => (1%Z, s1)
    end in
  let s3 :=
    match s2 with
    | c :: x :: r =>
        if Ascii.eqb c "0" && (Ascii.eqb x "x" || Ascii.eqb x "X")
        then match r with
             | u :: r' => if Ascii.eqb u "_" then r' else r
             | [] => r
             end
        else s2
    | _ => s2
    end in
  if startswith ["_"%char] s3 then None
  else
    match hex_digits false false 0 s3 with
    | Some (v, rest) =>
        if forallb isspace rest then Some (sign * v)%Z else None
    | None => None
    end.

End Py.

Import Py.

(** ** [uuid.UUID(hex)] *)

(** The constructor called with a string: the text loses [urn:] and [uuid:],
    surrounding braces and all hyphens; what is left must be 32 characters
    that [int(_, 16)] reads as a number below [2^128].  [None] stands for the
    [ValueError] the constructor raises. *)
Definition UUID (hex : string) : option Z :=
  let hex := replace (str_chars "urn:") [] (str_chars hex) in
  let hex := replace (str_chars "uuid:") [] hex in
  let hex := replace (str_chars "-") [] (strip (str_chars "{}") hex) in
  if negb (length hex =? 32)%nat then None
  else
    match int16 hex with
    | None => None
    | Some int =>
        if negb ((0 <=? int)%Z && (int <? 2 ^ 128)%Z) then None
        else Some int
    end.

(** ** Values, exceptions, responses, requests *)

(** What a path parameter or a [dict.get] result can be. *)
Inductive Value :=
| PyNone
| PyStr (s : string).

#[global] Instance Value_eq_dec : EqDecision Value.
Proof. solve_decision. Defined.

(** Truth value of an object: [None] and the empty string are false. *)
Definition truthy (v : Value) : bool :=
  match v with
  | PyNone => false
  | PyStr s => negb (String.eqb s "")
  end.

(** [str(v)] *)
Definition str (v : Value) : string :=
  match v with
  | PyNone => "None"
  | PyStr s => s
  end.

(** [d.get(key, None)] *)
Definition dict_get (d : gmap string Value) (key : string) : Value :=
  default PyNone (d !! key).

Inductive ExcClass :=
| IntegrityError
| ValidationError
| ObjectDoesNotExist
| KeyError
| LookupError
| ValueError
| AssertionError
| ZoneInfoNotFoundError
| APIException
| PermissionDenied
| OtherClass (name : string).

#[global] Instance ExcClass_eq_dec : EqDecision ExcClass.
Proof. solve_decision. Defined.

(** An exception object: the classes of its type's method resolution order
    below [Exception], and the two attributes the framework reads on
    [APIException] instances. *)
Record Exc := mkExc {
  exc_mro : list ExcClass;
  exc_detail : string;
  exc_status_code : nat
}.

Definition isinstance (e : Exc) (c : ExcClass) : bool :=
  bool_decide (c ∈ exc_mro e).

Definition new_exc (mro : list ExcClass) : Exc :=
  {| exc_mro := mro; exc_detail := ""; exc_status_code := 500 |}.

(** [rest_framework.response.Response(data, status=...)] *)
Record Response := mkResponse {
  data : gmap string string;
  status : nat
}.

Definition HTTP_400_BAD_REQUEST : nat := 400.
Definition HTTP_404_NOT_FOUND : nat := 404.
Definition HTTP_500_INTERNAL_SERVER_ERROR : nat := 500.

Record User := mkUser {
  is_authenticated : bool;
  user_timezone : string
}.

Record Request := mkRequest {
  user : User;
  GET : gmap string (list string);
  method : string;
  full_path : string
}.

(** Modelled from the spec: the model class
    [plane.db.models.ProjectIdentifier] is not among the sources.  A row of
    the IdentifierMapping relation takes a tenant (the slug of the
    workspace) and a human-readable key to a canonical id. *)
Record ProjectIdentifier := mkProjectIdentifier {
  workspace__slug : string;
  name : string;
  project_id : string
}.

(** ** Effects *)

(** What is mutated while a request is processed: [self.kwargs] of the view
    and the time zone active on the executing thread ([None] after
    [timezone.deactivate()]). *)
Record State := mkState {
  kwargs : gmap string Value;
  current_timezone : option string
}.

(** Calls to collaborators, in the order they happen. *)
Inductive Event :=
| Query (slug : Value) (alias : string)
| LogException (e : Exc)
| Print (text : string)
| PrintTraceback (e : Exc)
| PrintQueries (method path : string)
| Activate (zone : string)
| Deactivate
| HandlerInvoked (kw : gmap string Value).

(** A computation may raise, changes the state and emits events. *)
Definition M (A : Type) : Type := State -> (Exc + A) * State * list Event.

Definition ret {A} (a : A) : M A := fun st => (inr a, st, []).

Definition raise {A} (e : Exc) : M A := fun st => (inl e, st, []).

Definition bind {A B} (m : M A) (f : A -> M B) : M B :=
  fun st =>
    match m st with
    | (inl e, st1, ev1) => (inl e, st1, ev1)
    | (inr a, st1, ev1) =>
        let '(r, st2, ev2) := f a st1 in (r, st2, ev1 ++ ev2)
    end.

(** [try: m  except Exception as e: h e] *)
Definition try_except {A} (m : M A) (h : Exc -> M A) : M A :=
  fun st =>
    match m st with
    | (inl e, st1, ev1) =>
        let '(r, st2, ev2) := h e st1 in (r, st2, ev1 ++ ev2)
    | (inr a, st1, ev1) => (inr a, st1, ev1)
    end.

Definition emit (e : Event) : M unit := fun st => (inr tt, st, [e]).

Definition gets {A} (f : State -> A) : M A := fun st => (inr (f st), st, []).

Definition modify (f : State -> State) : M unit := fun st => (inr tt, f st, []).

(** The outcome of a collaborator that neither touches the state nor is
    observed. *)
Definition lift {A} (r : Exc + A) : M A := fun st => (r, st, []).

Definition when (b : bool) (m : M unit) : M unit := if b then m else ret tt.

#[global] Instance M_ret : MRet M := @ret.
#[global] Instance M_bind : MBind M := fun A B f m => bind m f.

Definition outcome {A} (r : (Exc + A) * State * list Event) : Exc + A := r.1.1.
Definition final {A} (r : (Exc + A) * State * list Event) : State := r.1.2.
Definition events {A} (r : (Exc + A) * State * list Event) : list Event := r.2.

Definition set_kwargs (kw : gmap string Value) (st : State) : State :=
  {| kwargs := kw; current_timezone := current_timezone st |}.

Definition set_timezone (tz : option string) (st : State) : State :=
  {| kwargs := kwargs st; current_timezone := tz |}.

(** ** Collaborators outside the module *)

Record Env := mkEnv {
  (** [settings.DEBUG] *)
  DEBUG : bool;
  (** the rows of [ProjectIdentifier.objects], in the order of an
      unordered queryset *)
  ProjectIdentifier_objects : list ProjectIdentifier;
  (** [zoneinfo.ZoneInfo(key)] of the standard library: the zone of the
      key is loaded, or the constructor raises ([ZoneInfoNotFoundError]
      for a key the time-zone database lacks, [ValueError] for a malformed
      key, whatever else the installation makes it raise) *)
  zoneinfo_load : string -> Exc + unit;
  (** [APIView.initial]: content negotiation, authentication, permission
      and throttle checks *)
  APIView_initial : Request -> Exc + unit;
  (** [APIView.handle_exception]: a response for the exceptions the
      framework renders itself, otherwise the exception raised again *)
  APIView_handle_exception : Exc -> Exc + Response;
  (** the method of the concrete view that serves the request *)
  handler : Request -> gmap string Value -> State -> Exc + Response;
  (** [APIView.finalize_response] *)
  finalize_response : Response -> Exc + Response
}.

(** Modelled from the spec: [plane.utils.exception_logger.log_exception]
    is not among the sources.  The exception logger is fire-and-forget and
    cannot fail the request; the call is recorded as an event. *)
Definition log_exception (e : Exc) : M unit := emit (LogException e).

(** [zoneinfo.ZoneInfo(key)]: the zone, known by its key, or the exception
    of the constructor. *)
Definition ZoneInfo (env : Env) (key : string) : M string :=
  lift (zoneinfo_load env key);;
  mret key.

(** [django.utils.timezone.activate] and [deactivate] *)
Definition timezone_activate (zone : string) : M unit :=
  modify (set_timezone (Some zone));; emit (Activate zone).

Definition timezone_deactivate : M unit :=
  modify (set_timezone None);; emit Deactivate.

(** [ProjectIdentifier.objects.filter(workspace__slug=slug, name=alias)
      .values("project_id").first()] *)
Definition matches (slug : Value) (alias : string) (row : ProjectIdentifier)
  : bool :=
  bool_decide (slug = PyStr (workspace__slug row))
  && String.eqb (name row) alias.

Definition filter_values_first (env : Env) (slug : Value) (alias : string)
  : M (option string) :=
  emit (Query slug alias);;
  mret (project_id <$> head (List.filter (matches slug alias)
                                (ProjectIdentifier_objects env))).

(** [rest_framework.views.APIView.dispatch], the method behind
    [super().dispatch]: it stores the keyword arguments on the view, runs
    [self.initial] and the handler, hands any exception of the two to
    [self.handle_exception], and finalizes the response. *)
Definition APIView_dispatch (env : Env)
    (self_initial : Request -> M unit)
    (self_handle_exception : Exc -> M Response)
    (request : Request) (kw : gmap string Value) : M Response :=
  modify (set_kwargs kw);;
  response ← try_except
    (self_initial request;;
     emit (HandlerInvoked kw);;
     st ← gets id;
     lift (handler env request kw st))
    self_handle_exception;
  lift (finalize_response env response).

(** What a [dispatch] method hands back to its caller: Python lets it be a
    response or any other object. *)
Inductive Returned :=
| RetResponse (r : Response)
| RetException (e : Exc).

(** ** class TimezoneMixin *)

Module TimezoneMixin.
Section TimezoneMixin.
Variable env : Env.

Definition initial (request : Request) : M unit :=
  lift (APIView_initial env request);;
  if is_authenticated (user request) then
    zone ← ZoneInfo env (user_timezone (user request));
    timezone_activate zone
  else
    timezone_deactivate.

End TimezoneMixin.
End TimezoneMixin.

(** The error response built by both [handle_exception] methods. *)
Definition error_response (message : string) (code : nat) : Response :=
  {| data := {[ "error" := message ]}; status := code |}.

(** ** class BaseViewSet *)

Module BaseViewSet.
Section BaseViewSet.
Variable env : Env.

Definition is_uuid (value : Value) : bool :=
  match UUID (str value) with
  | Some _ => true
  | None => false
  end.

Definition workspace_slug : M Value :=
  gets (fun st => dict_get (kwargs st) "slug").

Definition get_project_id (project_id : Value) : M Value :=
  if truthy project_id && negb (is_uuid project_id) then
    slug ← workspace_slug;
    project_identifier ← filter_values_first env slug (str project_id);
    match project_identifier with
    | None => raise (new_exc [ObjectDoesNotExist])
    | Some id => mret (PyStr id)
    end
  else mret project_id.

Definition get_issue_id (issue_id : Value) : M Value :=
  (if truthy issue_id && negb (is_uuid issue_id) then mret tt
   else mret tt);;
  mret issue_id.

Definition handle_exception (exc : Exc) : M Response :=
  try_except
    (response ← lift (APIView_handle_exception env exc);
     mret response)
    (fun e =>
       (if DEBUG env then emit (PrintTraceback e)
        else emit (Print "Server Error"));;
       if isinstance e IntegrityError then
         mret (error_response "The payload is not valid"
                 HTTP_400_BAD_REQUEST)
       else if isinstance e ValidationError then
         mret (error_response "Please provide valid detail"
                 HTTP_400_BAD_REQUEST)
       else if isinstance e ObjectDoesNotExist then
         mret (error_response "The required object does not exist."
                 HTTP_404_NOT_FOUND)
       else if isinstance e KeyError then
         log_exception e;;
         mret (error_response "The required key does not exist."
                 HTTP_400_BAD_REQUEST)
       else
         log_exception e;;
         mret (error_response "Something went wrong please try again later"
                 HTTP_500_INTERNAL_SERVER_ERROR)).

Definition set_item (key : string) (v : Value) : M unit :=
  modify (fun st => set_kwargs (<[key := v]> (kwargs st)) st).

Definition dispatch (request : Request) (kw : gmap string Value)
  : M Returned :=
  try_except
    (project_id ← gets (fun st => dict_get (kwargs st) "project_id");
     (if truthy project_id then
        resolved ← get_project_id project_id;
        set_item "project_id" resolved
      else mret tt);;
     issue_id ← gets (fun st => dict_get (kwargs st) "issue_id");
     (if truthy issue_id then
        resolved ← get_issue_id issue_id;
        set_item "issue_id" resolved
      else mret tt);;
     response ← APIView_dispatch env (TimezoneMixin.initial env)
                  handle_exception request kw;
     when (DEBUG env)
       (emit (PrintQueries (method request) (full_path request)));;
     mret (RetResponse response))
    (fun exc =>
       response ← handle_exception exc;
       mret (RetException exc)).

(** [request.GET.get(key, "")]: the last value given for the key. *)
Definition GET_get (request : Request) (key : string) : string :=
  match GET request !! key with
  | Some values => List.last values ""
  | None => ""
  end.

Definition fields (request : Request) : option (list string) :=
  let fields :=
    List.filter (fun field => negb (String.eqb field ""))
      (map chars_str (split "," (str_chars (GET_get request "fields")))) in
  match fields with
  | [] => None
  | _ :: _ => Some fields
  end.

Definition expand (request : Request) : option (list string) :=
  let expand :=
    List.filter (fun expand => negb (String.eqb expand ""))
      (map chars_str (split "," (str_chars (GET_get request "expand")))) in
  match expand with
  | [] => None
  | _ :: _ => Some expand
  end.

End BaseViewSet.
End BaseViewSet.

(** ** class BaseAPIView *)

Module BaseAPIView.
Section BaseAPIView.
Variable env : Env.

Definition handle_exception (exc : Exc) : M Response :=
  try_except
    (response ← lift (APIView_handle_exception env exc);
     mret response)
    (fun e =>
       if isinstance e IntegrityError then
         mret (error_response "The payload is not valid"
                 HTTP_400_BAD_REQUEST)
       else if isinstance e ValidationError then
         mret (error_response "Please provide valid detail"
                 HTTP_400_BAD_REQUEST)
       else if isinstance e ObjectDoesNotExist then
         mret (error_response "The required object does not exist."
                 HTTP_404_NOT_FOUND)
       else if isinstance e KeyError then
         mret (error_response "The required key does not exist."
                 HTTP_400_BAD_REQUEST)
       else
         log_exception e;;
         mret (error_response "Something went wrong please try again later"
                 HTTP_500_INTERNAL_SERVER_ERROR)).

Definition dispatch (request : Request) (kw : gmap string Value)
  : M Returned :=
  try_except
    (response ← APIView_dispatch env (TimezoneMixin.initial env)
                  handle_exception request kw;
     when (DEBUG env)
       (emit (PrintQueries (method request) (full_path request)));;
     mret (RetResponse response))
    (fun exc =>
       response ← handle_exception exc;
       mret (RetException exc)).

Definition workspace_slug : M Value :=
  gets (fun st => dict_get (kwargs st) "slug").

Definition project_id : M Value :=
  gets (fun st => dict_get (kwargs st) "project_id").

Definition fields (request : Request) : option (list string) :=
  let fields :=
    List.filter (fun field => negb (String.eqb field ""))
      (map chars_str
         (split "," (str_chars (BaseViewSet.GET_get request "fields")))) in
  match fields with
  | [] => None
  | _ :: _ => Some fields
  end.

Definition expand (request : Request) : option (list string) :=
  let expand :=
    List.filter (fun expand => negb (String.eqb expand ""))
      (map chars_str
         (split "," (str_chars (BaseViewSet.GET_get request "expand")))) in
  match expand with
  | [] => None
  | _ :: _ => Some expand
  end.

(** A filter backend: [backend().filter_queryset(request, queryset, view)]. *)
Variable Row : Type.

Fixpoint filter_queryset
    (filter_backends : list (Request -> State -> list Row -> Exc + list Row))
    (request : Request) (queryset : list Row) : M (list Row) :=
  match filter_backends with
  | [] => mret queryset
  | backend :: rest =>
      view ← gets id;
      queryset ← lift (backend request view queryset);
      filter_queryset rest request queryset
  end.

End BaseAPIView.
End BaseAPIView.

(** ** A concrete deployment, for evaluating the pipeline *)

Definition uuid_1 : string := "11111111-1111-1111-1111-111111111111".

(** The framework's default handler renders [APIException]s itself and
    raises everything else again. *)
Definition drf_handle_exception (exc : Exc) : Exc + Response :=
  if isinstance exc APIException then
    inr {| data := {[ "detail" := exc_detail exc ]};
           status := exc_status_code exc |}
  else inl exc.

Definition ok_response : Response :=
  {| data := {[ "name" := "Engineering" ]}; status := 200 |}.

(** The permission class [IsAuthenticated] of both base classes. *)
Definition NotAuthenticated : Exc :=
  {| exc_mro := [OtherClass "NotAuthenticated"; APIException];
     exc_detail := "Authentication credentials were not provided.";
     exc_status_code := 403 |}.

(** [ZoneInfoNotFoundError] derives from [KeyError]. *)
Definition ZoneInfoNotFound : Exc :=
  new_exc [ZoneInfoNotFoundError; KeyError; LookupError].

(** The keys that [zoneinfo] refuses with [ValueError] before it looks for
    a zone, on a POSIX system: absolute paths, paths that [os.path.normpath] shortens (the
    empty key, an empty component, a component [.] beside others, a
    component [..] after another) and paths that leave the database (a
    leading [..]). *)
Definition malformed_zone_key (key : string) : bool :=
  let parts := split "/" (str_chars key) in
  existsb
    (fun part =>
       match part with
       | [] => true
       | _ => String.eqb (chars_str part) ".."
       end)
    parts
  || (1 <? length parts)%nat
     && existsb (fun part => String.eqb (chars_str part) ".") parts.

Definition acme : Env :=
  {| DEBUG := false;
     ProjectIdentifier_objects :=
       [ {| workspace__slug := "acme"; name := "ENG"; project_id := uuid_1 |} ];
     zoneinfo_load := fun key =>
       if malformed_zone_key key then inl (new_exc [ValueError])
       else if bool_decide (key ∈ ["UTC"; "Asia/Kolkata"]) then inr tt
       else inl ZoneInfoNotFound;
     APIView_initial := fun request =>
       if is_authenticated (user request) then inr tt
       else inl NotAuthenticated;
     APIView_handle_exception := drf_handle_exception;
     handler := fun _ _ _ => inr ok_response;
     finalize_response := inr |}.

Definition alice : User :=
  {| is_authenticated := true; user_timezone := "Asia/Kolkata" |}.

Definition anonymous : User :=
  {| is_authenticated := false; user_timezone := "" |}.

Definition request_of (u : User) : Request :=
  {| user := u; GET := {[ "fields" := ["a,b,,c"] ]};
     method := "GET"; full_path := "/" |}.

Definition path_kwargs (slug project : string) : gmap string Value :=
  <["project_id" := PyStr project]> {[ "slug" := PyStr slug ]}.

Definition fresh (kw : gmap string Value) : State :=
  {| kwargs := kw; current_timezone := None |}.

(** The textual forms of a UUID.  [uuid_text] is the hyphenated form
    8-4-4-4-12 of hexadecimal digits; [hex32] allows the hyphens anywhere,
    or nowhere, around 32 hexadecimal digits. *)
Fixpoint hex_groups (groups : list nat) (s : chars) : bool :=
  match groups with
  | [] => false
  | [n] => (length s =? n)%nat && forallb is_hex s
  | n :: rest =>
      (length (take n s) =? n)%nat && forallb is_hex (take n s)
      && match drop n s with
         | "-"%char :: s' => hex_groups rest s'
         | _ => false
         end
  end.

Definition uuid_text (s : string) : bool :=
  hex_groups [8; 4; 4; 4; 12]%nat (str_chars s).

Definition uuid_char (c : ascii) : bool := is_hex c || Ascii.eqb c "-".

Definition hex32 (s : string) : bool :=
  forallb uuid_char (str_chars s)
  && (length (List.filter is_hex (str_chars s)) =? 32)%nat.

(** ** Vocabulary of the properties *)

(** The constructor after its three replacements and the strip. *)
Definition parse32 (hex : chars) : option Z :=
  if negb (length hex =? 32)%nat then None
  else
    match int16 hex with
    | None => None
    | Some int =>
        if negb ((0 <=? int)%Z && (int <? 2 ^ 128)%Z) then None
        else Some int
    end.

(** Runs a computation symbolically: the monad's operations are unfolded
    and the resulting matches reduced. *)
Ltac run :=
  unfold mbind, mret, M_bind, M_ret, bind, ret, raise, try_except, emit,
    gets, modify, lift, when, log_exception; cbn.

(** The rows of one tenant. *)
Definition tenant_rows (slug : Value) (rows : list ProjectIdentifier)
  : list ProjectIdentifier :=
  List.filter (fun row => bool_decide (slug = PyStr (workspace__slug row))) rows.

Definition with_rows (env : Env) (rows : list ProjectIdentifier) : Env :=
  {| DEBUG := DEBUG env;
     ProjectIdentifier_objects := rows;
     zoneinfo_load := zoneinfo_load env;
     APIView_initial := APIView_initial env;
     APIView_handle_exception := APIView_handle_exception env;
     handler := handler env;
     finalize_response := finalize_response env |}.

(** The three spellings of a key with 32 hexadecimal digits. *)
Definition spellings (s : string) : list string :=
  [s; "{" +:+ s +:+ "}"; "urn:uuid:" +:+ s].

Definition digits_1 : string := "0123456789abcdefABCDEF0123456789".

(** A key of 32 characters that is no textual form of a UUID, and a store
    in which it is an alias of the tenant. *)
Definition prefixed_key : string := "0x0123456789abcdefABCDEF01234567".

Definition aliased : Env :=
  with_rows acme
    [ {| workspace__slug := "acme"; name := prefixed_key;
         project_id := uuid_1 |} ].


(** The table of error kinds, as the specification words it. *)
Inductive ErrorKind :=
| DataIntegrity
| InputValidation
| ObjectAbsent
| MissingKey
| Unclassified.

(** Status, message and whether the cause is logged. *)
Definition spec_table (k : ErrorKind) : nat * string * bool :=
  match k with
  | DataIntegrity => (400, "The payload is not valid", false)
  | InputValidation => (400, "Please provide valid detail", false)
  | ObjectAbsent => (404, "The required object does not exist.", false)
  | MissingKey => (400, "The required key does not exist.", true)
  | Unclassified => (500, "Something went wrong please try again later", true)
  end.

(** The kinds in the order they are tried, each with the class that
    stands for it. *)
Definition spec_order : list (ExcClass * ErrorKind) :=
  [ (IntegrityError, DataIntegrity); (ValidationError, InputValidation);
    (ObjectDoesNotExist, ObjectAbsent); (KeyError, MissingKey) ].

(** First match, with the catch-all last. *)
Definition spec_classify (e : Exc) : ErrorKind :=
  match List.find (fun ck => isinstance e ck.1) spec_order with
  | Some ck => ck.2
  | None => Unclassified
  end.

Definition spec_response (e : Exc) : Response :=
  let '(code, message, _) := spec_table (spec_classify e) in
  {| data := {[ "error" := message ]}; status := code |}.

Definition is_log (ev : Event) : bool :=
  match ev with LogException _ => true | _ => false end.

(** The events of the view set's classifier: the console line, and the log
    call for the kinds the table marks. *)
Definition viewset_events (env : Env) (e : Exc) : list Event :=
  (if DEBUG env then PrintTraceback e else Print "Server Error")
  :: (if (spec_table (spec_classify e)).2 then [LogException e] else []).

(** The events of the plain view's classifier: it logs the catch-all
    only. *)
Definition apiview_events (e : Exc) : list Event :=
  match spec_classify e with
  | Unclassified => [LogException e]
  | _ => []
  end.

Definition key_error : Exc := new_exc [KeyError; LookupError].

(** A class deriving from both [KeyError] and [IntegrityError]. *)
Definition mixed_error : Exc :=
  new_exc [OtherClass "StaleRow"; KeyError; LookupError; IntegrityError].

Definition comma_free (w : chars) : bool :=
  forallb (fun c => negb (Ascii.eqb c ",")) w.

Definition nonempty (s : string) : bool := negb (String.eqb s "").

(** The text of a query parameter that lists [entries]. *)
Definition comma_joined (entries : list string) : string :=
  chars_str (join "," (map str_chars entries)).

Definition null_if_empty (l : list string) : option (list string) :=
  match l with
  | [] => None
  | _ :: _ => Some l
  end.

Definition is_locale_step (ev : Event) : bool :=
  match ev with
  | Activate _ | Deactivate => true
  | _ => false
  end.

Definition is_handler (ev : Event) : bool :=
  match ev with
  | HandlerInvoked _ => true
  | _ => false
  end.

(** Among the locale steps and handler invocations of a trace the first
    one, if there is any, is a locale step. *)
Fixpoint locale_precedes_handler (tr : list Event) : bool :=
  match tr with
  | [] => true
  | ev :: tr' =>
      if is_locale_step ev then true
      else if is_handler ev then false
      else locale_precedes_handler tr'
  end.

(** Neither a locale step nor a handler invocation. *)
Definition quiet (tr : list Event) : bool :=
  forallb (fun ev => negb (is_locale_step ev || is_handler ev)) tr.

(** Both classifiers return a response, leave the view as it is and emit
    console and log events only. *)
Definition classifier (h : Exc -> M Response) : Prop :=
  forall e st, exists response ev,
    h e st = (inr response, st, ev) /\ quiet ev = true.

(** What a trace of the pipeline must satisfy: a handler invocation comes
    after a locale step, and when no locale step ran the handler did not
    run either and the thread's zone is the one found. *)
Definition locale_ordered (st : State) {A}
    (r : (Exc + A) * State * list Event) : Prop :=
  locale_precedes_handler (events r) = true
  /\ (existsb is_locale_step (events r) = false ->
      existsb is_handler (events r) = false
      /\ current_timezone (final r) = current_timezone st).

(** Events that happened before a computation. *)
Definition prepend {A} (ev : list Event)
    (r : (Exc + A) * State * list Event) : (Exc + A) * State * list Event :=
  (r.1.1, r.1.2, ev ++ r.2).

(** A view whose handler hands back something [finalize_response] does not
    accept as a response. *)
Definition assertion_error : Exc := new_exc [AssertionError].

Definition careless : Env :=
  {| DEBUG := DEBUG acme;
     ProjectIdentifier_objects := ProjectIdentifier_objects acme;
     zoneinfo_load := zoneinfo_load acme;
     APIView_initial := APIView_initial acme;
     APIView_handle_exception := APIView_handle_exception acme;
     handler := handler acme;
     finalize_response := fun _ => inl assertion_error |}.

(** A thread that served a user in another zone before. *)
Definition stale (kw : gmap string Value) : State :=
  {| kwargs := kw; current_timezone := Some "UTC" |}.

(** A user whose stored zone name the time-zone database does not know. *)
Definition martian : User :=
  {| is_authenticated := true; user_timezone := "Mars/Olympus" |}.

(** A user whose stored zone name is a path, not a key of the database. *)
Definition misfiled : User :=
  {| is_authenticated := true; user_timezone := "/etc/localtime" |}.

(** What is written to the console. *)
Definition is_console (ev : Event) : bool :=
  match ev with
  | Print _ | PrintTraceback _ | PrintQueries _ _ => true
  | _ => false
  end.

(** A query to the store. *)
Definition is_query (ev : Event) : bool :=
  match ev with
  | Query _ _ => true
  | _ => false
  end.

(** The events of a run that are not [hidden]. *)
Definition visible (hidden : Event -> bool) (tr : list Event) : list Event :=
  List.filter (fun ev => negb (hidden ev)) tr.

(** Two runs hand back the same object, leave the same state and differ
    in [hidden] events only. *)
Definition agree (hidden : Event -> bool) {A}
    (r1 r2 : (Exc + A) * State * list Event) : Prop :=
  outcome r1 = outcome r2 /\ final r1 = final r2
  /\ visible hidden (events r1) = visible hidden (events r2).


(** The body of [BaseViewSet.dispatch] behind identifier resolution, with
    its [except] branch. *)
Definition viewset_tail (env : Env) (request : Request)
    (kw : gmap string Value) : M Returned :=
  try_except
    (response ← APIView_dispatch env (TimezoneMixin.initial env)
                  (BaseViewSet.handle_exception env) request kw;
     when (DEBUG env)
       (emit (PrintQueries (method request) (full_path request)));;
     mret (RetResponse response))
    (fun exc =>
       response ← BaseViewSet.handle_exception env exc;
       mret (RetException exc)).

(** The common shape of [BaseAPIView.dispatch] and of the rest of
    [BaseViewSet.dispatch]: the framework's [dispatch] with a classifier
    [h], the diagnostic line when [debug] is set, and the [except]
    branch. *)
Definition pipeline_tail (env : Env) (debug : bool)
    (h : Exc -> M Response) (request : Request) (kw : gmap string Value)
  : M Returned :=
  try_except
    (response ← APIView_dispatch env (TimezoneMixin.initial env) h
                  request kw;
     when debug
       (emit (PrintQueries (method request) (full_path request)));;
     mret (RetResponse response))
    (fun exc => response ← h exc; mret (RetException exc)).

(** The backends applied in turn to a query set, up to the first one that
    raises. *)
Fixpoint apply_backends {Row : Type}
    (backends : list (Request -> State -> list Row -> Exc + list Row))
    (request : Request) (view : State) (queryset : list Row)
  : Exc + list Row :=
  match backends with
  | [] => inr queryset
  | backend :: rest =>
      match backend request view queryset with
      | inl e => inl e
      | inr filtered => apply_backends rest request view filtered
      end
  end.

(** A backend that only ever removes rows. *)
Definition restricting {Row : Type}
    (backend : Request -> State -> list Row -> Exc + list Row) : Prop :=
  forall request view queryset filtered,
    backend request view queryset = inr filtered ->
    sublist filtered queryset.

(** Two backends over rows that are numbers: one keeps the even rows, one
    drops the first row. *)
Definition keep_even (_ : Request) (_ : State) (queryset : list nat)
  : Exc + list nat :=
  inr (List.filter Nat.even queryset).

Definition drop_first (_ : Request) (_ : State) (queryset : list nat)
  : Exc + list nat :=
  inr (tail queryset).

(** The same request with another query string. *)
Definition with_GET (request : Request) (query : gmap string (list string))
  : Request :=
  {| user := user request; GET := query;
     method := method request; full_path := full_path request |}.

(** * Properties *)

(** ** Characters and strings *)

Example split_keeps_empty_entries :
  map chars_str (split "," (str_chars "a,b,,c")) = ["a"; "b"; ""; "c"]
  /\ map chars_str (split "," (str_chars "")) = [""].
Proof. split; reflexivity. Qed.

Example replace_is_not_overlapping :
  chars_str (replace (str_chars "aa") (str_chars "b") (str_chars "aaaaa"))
  = "bba"
  /\ chars_str (replace (str_chars "urn:") [] (str_chars "urn:uuid:12urn"))
     = "uuid:12urn".
Proof. split; reflexivity. Qed.

Example strip_stops_at_other_characters :
  chars_str (strip (str_chars "{}") (str_chars "{{ab}c}}{")) = "ab}c".
Proof. reflexivity. Qed.

Example int16_forms :
  int16 (str_chars " 0x_1f_f ") = Some 511%Z
  /\ int16 (str_chars "-ff") = Some (-255)%Z
  /\ int16 (str_chars "0x") = None
  /\ int16 (str_chars "f__f") = None
  /\ int16 (str_chars "_f") = None
  /\ int16 (str_chars "fg") = None.
Proof. repeat split; reflexivity. Qed.

Example UUID_forms :
  UUID uuid_1 = Some 22685491128062564230891640495451214097%Z
  /\ UUID ("{" +:+ uuid_1 +:+ "}") = UUID uuid_1
  /\ UUID ("urn:uuid:" +:+ uuid_1) = UUID uuid_1
  /\ UUID "ENG" = None
  /\ UUID "" = None.
Proof. repeat split; vm_compute; reflexivity. Qed.

Lemma is_hex_plain c :
  is_hex c = true ->
  Ascii.eqb c "-" = false /\ Ascii.eqb c "_" = false /\
  Ascii.eqb c "+" = false /\ Ascii.eqb c "x" = false /\
  Ascii.eqb c "X" = false /\ Ascii.eqb "u" c = false /\
  char_in c (str_chars "{}") = false /\ isspace c = false /\
  exists v, hex_value c = Some v /\ (0 <= v < 16)%Z.
Proof.
  destruct c as [[] [] [] [] [] [] [] []]; vm_compute; intros H;
    try discriminate H; repeat split; eauto;
    eexists; (split; [reflexivity | split; [discriminate | reflexivity]]).
Qed.

Lemma str_chars_app s t : str_chars (s +:+ t) = str_chars s ++ str_chars t.
Proof.
  unfold str_chars. induction s as [|c s IH]; [reflexivity|].
  simpl. by rewrite IH.
Qed.

Lemma str_chars_of_chars l : str_chars (chars_str l) = l.
Proof. apply list_ascii_of_string_of_list_ascii. Qed.

(** A text without the first character of [old] has nothing to replace. *)
Lemma replace_scan_absent c old new s :
  Forall (fun x => Ascii.eqb c x = false) s ->
  replace_scan 0 (c :: old) new s = s.
Proof.
  induction 1 as [|x s Hx _ IH]; [reflexivity|].
  cbn. rewrite Hx. cbn. by rewrite IH.
Qed.

(** Replacing one character by nothing keeps the other characters. *)
Lemma replace_scan_char c s :
  replace_scan 0 [c] [] s = List.filter (fun x => negb (Ascii.eqb c x)) s.
Proof.
  induction s as [|x s IH]; [reflexivity|].
  cbn. destruct (Ascii.eqb c x); cbn; by rewrite IH.
Qed.

Lemma lstrip_head set c s :
  char_in c set = false -> lstrip set (c :: s) = c :: s.
Proof. intros H. cbn. by rewrite H. Qed.

Lemma strip_plain set s :
  Forall (fun x => char_in x set = false) s -> strip set s = s.
Proof.
  intros H. unfold strip, rstrip.
  assert (Hl : forall t, Forall (fun x => char_in x set = false) t ->
                         lstrip set t = t).
  { intros t [|x t' Hx _]; [reflexivity|]. by apply lstrip_head. }
  rewrite (Hl s H). rewrite Hl; [apply rev_involutive|].
  by apply Forall_rev.
Qed.

(** Braces around a text that has none are stripped. *)
Lemma strip_braced s :
  s <> [] ->
  Forall (fun x => char_in x (str_chars "{}") = false) s ->
  strip (str_chars "{}") ("{"%char :: s ++ ["}"%char]) = s.
Proof.
  intros Hne H. unfold strip, rstrip.
  assert (Hl : forall t, Forall (fun x => char_in x (str_chars "{}") = false) t ->
                         lstrip (str_chars "{}") t = t).
  { intros t [|x t' Hx _]; [reflexivity|]. by apply lstrip_head. }
  assert (E1 : lstrip (str_chars "{}") ("{"%char :: s ++ ["}"%char])
               = s ++ ["}"%char]).
  { change (lstrip (str_chars "{}") (s ++ ["}"%char]) = s ++ ["}"%char]).
    destruct H as [|x s' Hx _]; [done|]. by apply lstrip_head. }
  rewrite E1, rev_app_distr. cbn [rev app].
  change (rev (lstrip (str_chars "{}") (rev s)) = s).
  rewrite Hl; [apply rev_involutive | by apply Forall_rev].
Qed.

(** ** [int(s, 16)] on hexadecimal digits *)

Lemma hex_digits_all_hex s : forall seen acc,
  Forall (fun c => is_hex c = true) s ->
  (0 <= acc)%Z ->
  seen = true \/ s <> [] ->
  exists v, hex_digits false seen acc s = Some (v, [])
    /\ (acc * 16 ^ Z.of_nat (length s) <= v
        < (acc + 1) * 16 ^ Z.of_nat (length s))%Z.
Proof.
  induction s as [|c s IH]; intros seen acc Hs Hacc Hseen.
  - destruct Hseen as [->|]; [|done]. exists acc. cbn. split; [done|lia].
  - inversion Hs as [|? ? Hc Hs']; subst.
    destruct (is_hex_plain c Hc) as (_ & Hus & _ & _ & _ & _ & _ & _ & v0 & Hv0 & Hb).
    cbn [hex_digits]. rewrite Hus, Hv0.
    destruct (IH true (16 * acc + v0)%Z Hs' ltac:(lia) (or_introl eq_refl))
      as (v & Hv & Hbound).
    exists v. split; [done|].
    rewrite length_cons, Nat2Z.inj_succ, Z.pow_succ_r by lia. nia.
Qed.

Lemma int16_all_hex s :
  Forall (fun c => is_hex c = true) s -> s <> [] ->
  exists v, int16 s = Some v /\ (0 <= v < 16 ^ Z.of_nat (length s))%Z.
Proof.
  intros Hs Hne. destruct s as [|c s]; [done|].
  inversion Hs as [|? ? Hc Hs']; subst.
  destruct (is_hex_plain c Hc)
    as (Hminus & Hus & Hplus & _ & _ & _ & _ & Hsp & _).
  destruct (hex_digits_all_hex (c :: s) false 0%Z Hs ltac:(lia)
              (or_intror Hne)) as (v & Hv & Hbound).
  exists v. split; [|lia].
  unfold int16. cbn [skip_space]. rewrite Hsp, Hplus, Hminus.
  assert (Hprefix :
    match c :: s with
    | c0 :: x :: r =>
        if Ascii.eqb c0 "0" && (Ascii.eqb x "x" || Ascii.eqb x "X")
        then match r with
             | u :: r' => if Ascii.eqb u "_" then r' else r
             | [] => r
             end
        else c :: s
    | _ => c :: s
    end = c :: s).
  { destruct s as [|x r]; [done|].
    inversion Hs' as [|? ? Hx _]; subst.
    destruct (is_hex_plain x Hx) as (_ & _ & _ & -> & -> & _).
    by rewrite andb_false_r. }
  rewrite Hprefix. cbn [startswith].
  rewrite Ascii.eqb_sym, Hus. cbn [andb].
  rewrite Hv. cbn. f_equal. lia.
Qed.

(** ** [uuid.UUID] on the textual forms *)

Lemma uuid_char_plain c :
  uuid_char c = true ->
  Ascii.eqb "u" c = false /\ char_in c (str_chars "{}") = false /\
  negb (Ascii.eqb "-" c) = is_hex c.
Proof.
  destruct c as [[] [] [] [] [] [] [] []]; vm_compute; intros H;
    try discriminate H; done.
Qed.

Lemma forallb_holds {A} (f : A -> bool) l :
  forallb f l = true -> Forall (fun x => f x = true) l.
Proof.
  induction l as [|x l IH]; [constructor|].
  cbn. intros [? ?]%andb_true_iff. constructor; auto.
Qed.

Lemma UUID_unfold hex :
  UUID hex =
  parse32 (replace (str_chars "-") []
             (strip (str_chars "{}")
                (replace (str_chars "uuid:") []
                   (replace (str_chars "urn:") [] (str_chars hex))))).
Proof. reflexivity. Qed.

Lemma replace_hyphens s :
  forallb uuid_char s = true ->
  replace (str_chars "-") [] s = List.filter is_hex s.
Proof.
  intros H%forallb_holds.
  change (replace_scan 0 ["-"%char] [] s = List.filter is_hex s).
  rewrite replace_scan_char.
  induction H as [|x l Hx _ IH]; [reflexivity|].
  apply uuid_char_plain in Hx as (_ & _ & Hx).
  cbn [List.filter]. rewrite Hx, IH. reflexivity.
Qed.

Section Hex32.
Variable s : chars.
Hypothesis Hchars : forallb uuid_char s = true.
Hypothesis Hlen : length (List.filter is_hex s) = 32%nat.

Lemma hex32_no_u : Forall (fun x => Ascii.eqb "u" x = false) s.
Proof using Hchars.
  eapply Forall_impl; [exact (forallb_holds _ _ Hchars)|].
  intros x Hx. apply uuid_char_plain in Hx. tauto.
Qed.

Lemma hex32_no_brace :
  Forall (fun x => char_in x (str_chars "{}") = false) s.
Proof using Hchars.
  eapply Forall_impl; [exact (forallb_holds _ _ Hchars)|].
  intros x Hx. apply uuid_char_plain in Hx. tauto.
Qed.

Lemma hex32_nonempty : s <> [].
Proof using Hlen.
  intros E. pose proof Hlen as H. rewrite E in H. discriminate H.
Qed.

Lemma hex32_digits :
  replace (str_chars "-") [] s = List.filter is_hex s.
Proof using Hchars. by apply replace_hyphens. Qed.

Lemma parse32_digits : is_Some (parse32 (List.filter is_hex s)).
Proof using Hlen.
  unfold parse32. rewrite Hlen. cbn [Nat.eqb negb].
  destruct (int16_all_hex (List.filter is_hex s)) as (v & -> & Hv).
  - clear. induction s as [|x l IH]; [constructor|].
    cbn. destruct (is_hex x) eqn:E; [constructor|]; auto.
  - intros E. rewrite E in Hlen. discriminate Hlen.
  - rewrite Hlen in Hv. change (16 ^ Z.of_nat 32)%Z with (2 ^ 128)%Z in Hv.
    replace ((0 <=? v)%Z && (v <? 2 ^ 128)%Z) with true; [by eexists|].
    symmetry. apply andb_true_iff. split; [apply Z.leb_le|apply Z.ltb_lt]; lia.
Qed.

Lemma parse32_plain :
  is_Some (parse32 (replace (str_chars "-") [] (strip (str_chars "{}") s))).
Proof using Hchars Hlen.
  rewrite (strip_plain _ _ hex32_no_brace), hex32_digits.
  apply parse32_digits.
Qed.

End Hex32.

Lemma hex32_spec s :
  hex32 s = true ->
  forallb uuid_char (str_chars s) = true
  /\ length (List.filter is_hex (str_chars s)) = 32%nat.
Proof.
  unfold hex32. intros [H1 H2]%andb_true_iff.
  split; [exact H1|]. by apply Nat.eqb_eq.
Qed.

(** Hyphens anywhere around 32 hexadecimal digits. *)
Lemma UUID_hex32 s : hex32 s = true -> is_Some (UUID s).
Proof.
  intros [Hc Hl]%hex32_spec. rewrite UUID_unfold.
  pose proof (hex32_no_u _ Hc) as Hu.
  change (str_chars "urn:") with ("u"%char :: str_chars "rn:").
  change (str_chars "uuid:") with ("u"%char :: str_chars "uid:").
  unfold replace. rewrite !(replace_scan_absent "u" _ _ _ Hu).
  by apply parse32_plain.
Qed.

(** The same between braces. *)
Lemma UUID_braced s : hex32 s = true -> is_Some (UUID ("{" +:+ s +:+ "}")).
Proof.
  intros [Hc Hl]%hex32_spec. rewrite UUID_unfold, !str_chars_app.
  change (str_chars "{") with ["{"%char].
  change (str_chars "}") with ["}"%char].
  cbn [app].
  assert (Hu : Forall (fun x => Ascii.eqb "u" x = false)
                 ("{"%char :: str_chars s ++ ["}"%char])).
  { constructor; [done|]. apply Forall_app. split; [by apply hex32_no_u|].
    by constructor. }
  change (str_chars "urn:") with ("u"%char :: str_chars "rn:").
  change (str_chars "uuid:") with ("u"%char :: str_chars "uid:").
  unfold replace at 2 3. rewrite !(replace_scan_absent "u" _ _ _ Hu).
  rewrite strip_braced;
    [| by apply hex32_nonempty | by apply hex32_no_brace].
  rewrite hex32_digits by done. by apply parse32_digits.
Qed.

(** The same as a URN. *)
Lemma UUID_urn s : hex32 s = true -> is_Some (UUID ("urn:uuid:" +:+ s)).
Proof.
  intros [Hc Hl]%hex32_spec. rewrite UUID_unfold, str_chars_app.
  pose proof (hex32_no_u _ Hc) as Hu.
  assert (E1 : replace (str_chars "urn:") []
                 (str_chars "urn:uuid:" ++ str_chars s)
               = str_chars "uuid:" ++ str_chars s).
  { cbn. f_equal. f_equal. f_equal. f_equal. f_equal.
    apply (replace_scan_absent "u" (str_chars "rn:") [] _ Hu). }
  rewrite E1.
  assert (E2 : replace (str_chars "uuid:") []
                 (str_chars "uuid:" ++ str_chars s) = str_chars s).
  { cbn. apply (replace_scan_absent "u" (str_chars "uid:") [] _ Hu). }
  rewrite E2. by apply parse32_plain.
Qed.

Lemma filter_all_hex s :
  forallb is_hex s = true ->
  List.filter is_hex s = s /\ forallb uuid_char s = true.
Proof.
  induction s as [|c s IH]; [done|].
  cbn. intros [Hc Hs]%andb_true_iff. destruct (IH Hs) as [E1 E2].
  unfold uuid_char at 1. rewrite Hc, E1, E2. done.
Qed.

Lemma hex_groups_spec groups : forall s,
  hex_groups groups s = true ->
  forallb uuid_char s = true
  /\ length (List.filter is_hex s) = foldr Nat.add 0%nat groups.
Proof.
  induction groups as [|n rest IH]; intros s H; [discriminate H|].
  destruct rest as [|m rest].
  - cbn in H. apply andb_true_iff in H as [Hlen Hhex].
    apply Nat.eqb_eq in Hlen. destruct (filter_all_hex _ Hhex) as [-> ->].
    cbn. split; [done|lia].
  - cbn [hex_groups] in H.
    apply andb_true_iff in H as [[Hlen Hhex]%andb_true_iff Hrest].
    apply Nat.eqb_eq in Hlen.
    destruct (drop n s) as [|c s'] eqn:Hdrop; [discriminate Hrest|].
    destruct (Ascii.eqb_spec c "-") as [->|Hc];
      [| destruct c as [[] [] [] [] [] [] [] []]; done].
    destruct (IH s' Hrest) as [Hall Hcount].
    destruct (filter_all_hex _ Hhex) as [Hf Hu].
    rewrite <- (take_drop n s), Hdrop.
    rewrite forallb_app, List.filter_app, length_app, Hf, Hlen, Hu.
    cbn [forallb List.filter]. rewrite Hall.
    change (is_hex "-") with false. cbn iota.
    split; [done|]. rewrite Hcount. reflexivity.
Qed.

(** The hyphenated form is one of the forms with 32 digits. *)
Lemma uuid_text_hex32 s : uuid_text s = true -> hex32 s = true.
Proof.
  unfold uuid_text, hex32. intros [H1 H2]%hex_groups_spec.
  rewrite H1, H2. reflexivity.
Qed.

(** So are 32 hexadecimal digits on their own. *)
Lemma digits_hex32 s :
  forallb is_hex (str_chars s) = true -> String.length s = 32%nat ->
  hex32 s = true.
Proof.
  intros [H1 H2]%filter_all_hex Hlen. unfold hex32.
  rewrite H1, H2. unfold str_chars.
  rewrite <- (string_of_list_ascii_of_string s) in Hlen.
  revert Hlen. generalize (list_ascii_of_string s). intros l.
  assert (E : String.length (string_of_list_ascii l) = length l).
  { induction l as [|c l IH]; [done|]. cbn. by rewrite IH. }
  rewrite E. intros ->. reflexivity.
Qed.

(** ** IdentifierResolver: [is_uuid], [get_project_id], [get_issue_id] *)

Lemma is_uuid_parsed s :
  BaseViewSet.is_uuid (PyStr s) = true <-> is_Some (UUID s).
Proof.
  unfold BaseViewSet.is_uuid. cbn [str].
  destruct (UUID s); split; intros H; try done; by destruct H.
Qed.

(** Without a condition to enter the lookup the key comes back as it is,
    the view is untouched and no collaborator is called. *)
Lemma get_project_id_skip env v st :
  truthy v && negb (BaseViewSet.is_uuid v) = false ->
  BaseViewSet.get_project_id env v st = (inr v, st, []).
Proof. intros H. unfold BaseViewSet.get_project_id. by rewrite H. Qed.

(** The lookup, for a key that enters it. *)
Lemma get_project_id_query env s st :
  truthy (PyStr s) && negb (BaseViewSet.is_uuid (PyStr s)) = true ->
  BaseViewSet.get_project_id env (PyStr s) st =
  (match head (List.filter (matches (dict_get (kwargs st) "slug") s)
                 (ProjectIdentifier_objects env)) with
   | Some row => inr (PyStr (project_id row))
   | None => inl (new_exc [ObjectDoesNotExist])
   end, st, [Query (dict_get (kwargs st) "slug") s]).
Proof.
  intros H. unfold BaseViewSet.get_project_id. rewrite H.
  unfold BaseViewSet.workspace_slug, filter_values_first. run.
  by destruct (head _).
Qed.

Lemma matches_tenant slug alias rows :
  List.filter (matches slug alias) rows =
  List.filter (fun row => String.eqb (name row) alias) (tenant_rows slug rows).
Proof.
  unfold tenant_rows, matches. induction rows as [|r rows IH]; [done|].
  cbn. destruct (bool_decide _); cbn; rewrite IH; reflexivity.
Qed.

(** C3: a non-empty key that the UUID test rejects is looked up among the
    aliases of the tenant named by the [slug] path parameter, with exactly
    one query: the first matching row gives the identifier returned, no
    matching row raises [ObjectDoesNotExist], and rows of other tenants
    never change the outcome. *)
Theorem get_project_id_resolves_alias env st rawKey :
  rawKey <> "" ->
  BaseViewSet.is_uuid (PyStr rawKey) = false ->
  let tenant := dict_get (kwargs st) "slug" in
  let found := List.filter (matches tenant rawKey)
                 (ProjectIdentifier_objects env) in
  (forall row rest, found = row :: rest ->
     workspace__slug row = str tenant /\ name row = rawKey /\
     BaseViewSet.get_project_id env (PyStr rawKey) st
     = (inr (PyStr (project_id row)), st, [Query tenant rawKey]))
  /\ (found = [] ->
      BaseViewSet.get_project_id env (PyStr rawKey) st
      = (inl (new_exc [ObjectDoesNotExist]), st, [Query tenant rawKey]))
  /\ (forall rows,
        tenant_rows tenant rows
        = tenant_rows tenant (ProjectIdentifier_objects env) ->
        BaseViewSet.get_project_id (with_rows env rows) (PyStr rawKey) st
        = BaseViewSet.get_project_id env (PyStr rawKey) st).
Proof.
  intros Hne Hnot tenant found.
  assert (Hcond : truthy (PyStr rawKey)
                  && negb (BaseViewSet.is_uuid (PyStr rawKey)) = true).
  { rewrite Hnot. cbn. destruct (String.eqb_spec rawKey ""); done. }
  split; [|split].
  - intros row rest Hfound.
    rewrite (get_project_id_query _ _ _ Hcond).
    fold tenant. fold found. rewrite Hfound. cbn [head].
    assert (Hin : In row found) by (rewrite Hfound; left; done).
    apply filter_In in Hin as [_ Hm]. unfold matches in Hm.
    apply andb_true_iff in Hm as [Hs Hn].
    apply bool_decide_eq_true in Hs. apply String.eqb_eq in Hn.
    rewrite Hs. done.
  - intros Hfound. rewrite (get_project_id_query _ _ _ Hcond).
    fold tenant. fold found. by rewrite Hfound.
  - intros rows Hrows.
    rewrite !(get_project_id_query _ _ _ Hcond). cbn [with_rows ProjectIdentifier_objects].
    fold tenant. by rewrite !matches_tenant, Hrows.
Qed.

Lemma get_project_id_resolves_alias_witness :
  BaseViewSet.get_project_id acme (PyStr "ENG") (fresh (path_kwargs "acme" "ENG"))
  = (inr (PyStr uuid_1), fresh (path_kwargs "acme" "ENG"),
     [Query (PyStr "acme") "ENG"])
  /\ BaseViewSet.get_project_id acme (PyStr "ENG")
       (fresh (path_kwargs "other" "ENG"))
     = (inl (new_exc [ObjectDoesNotExist]), fresh (path_kwargs "other" "ENG"),
        [Query (PyStr "other") "ENG"]).
Proof.
  split.
  - exact (proj2 (proj2 (proj1 (get_project_id_resolves_alias acme
             (fresh (path_kwargs "acme" "ENG")) "ENG"
             ltac:(discriminate) ltac:(vm_compute; reflexivity))
             (mkProjectIdentifier "acme" "ENG" uuid_1) []
             ltac:(vm_compute; reflexivity)))).
  - exact (proj1 (proj2 (get_project_id_resolves_alias acme
             (fresh (path_kwargs "other" "ENG")) "ENG"
             ltac:(discriminate) ltac:(vm_compute; reflexivity)))
             ltac:(vm_compute; reflexivity)).
Defined.

(** A key can pass the UUID test without being in a textual form of a
    UUID: [0x] and 30 hexadecimal digits are 32 characters that
    [int(_, 16)] accepts.  Such a key is never looked up: it is returned
    as it is, not the identifier its alias maps to under the tenant, and
    without [ObjectDoesNotExist] where the tenant has no such alias. *)
Lemma get_project_id_skips_prefixed_alias :
  String.eqb prefixed_key "" = false
  /\ uuid_text prefixed_key = false
  /\ hex32 prefixed_key = false
  /\ List.filter (matches (PyStr "acme") prefixed_key)
       (ProjectIdentifier_objects aliased)
     = [ {| workspace__slug := "acme"; name := prefixed_key;
            project_id := uuid_1 |} ]
  /\ BaseViewSet.get_project_id aliased (PyStr prefixed_key)
       (fresh (path_kwargs "acme" prefixed_key))
     = (inr (PyStr prefixed_key),
        fresh (path_kwargs "acme" prefixed_key), [])
  /\ List.filter (matches (PyStr "acme") prefixed_key)
       (ProjectIdentifier_objects acme)
     = []
  /\ BaseViewSet.get_project_id acme (PyStr prefixed_key)
       (fresh (path_kwargs "acme" prefixed_key))
     = (inr (PyStr prefixed_key),
        fresh (path_kwargs "acme" prefixed_key), []).
Proof.
  assert (H : forall env,
            BaseViewSet.get_project_id env (PyStr prefixed_key)
              (fresh (path_kwargs "acme" prefixed_key))
            = (inr (PyStr prefixed_key),
               fresh (path_kwargs "acme" prefixed_key), [])).
  { intros env. apply get_project_id_skip. vm_compute. reflexivity. }
  repeat split; try apply H; vm_compute; reflexivity.
Qed.

(** C4: an absent key, an empty key and a key in the hyphenated UUID form
    8-4-4-4-12 come back unchanged; the view is untouched and the event
    list is empty, so the store is not queried. *)
Theorem get_project_id_returns_canonical_unchanged env st rawKey :
  rawKey = PyNone \/ rawKey = PyStr ""
  \/ (exists s, rawKey = PyStr s /\ uuid_text s = true) ->
  BaseViewSet.get_project_id env rawKey st = (inr rawKey, st, []).
Proof.
  intros H. apply get_project_id_skip.
  destruct H as [-> | [-> | (s & -> & Hs)]]; [reflexivity..|].
  apply uuid_text_hex32, UUID_hex32, is_uuid_parsed in Hs.
  rewrite Hs. apply andb_false_r.
Qed.

Lemma get_project_id_returns_canonical_unchanged_witness :
  BaseViewSet.get_project_id acme (PyStr uuid_1)
    (fresh (path_kwargs "acme" uuid_1))
  = (inr (PyStr uuid_1), fresh (path_kwargs "acme" uuid_1), []).
Proof.
  apply get_project_id_returns_canonical_unchanged.
  right. right. exists uuid_1. split; [reflexivity|].
  vm_compute. reflexivity.
Defined.

(** C9: [get_issue_id] hands its argument back, whatever it is, without
    raising, without touching the view and without calling a
    collaborator. *)
Theorem get_issue_id_is_pass_through st issue_id :
  BaseViewSet.get_issue_id issue_id st = (inr issue_id, st, []).
Proof.
  unfold BaseViewSet.get_issue_id.
  destruct (truthy issue_id && negb (BaseViewSet.is_uuid issue_id));
    reflexivity.
Qed.

(** C10: every string the UUID constructor parses passes [is_uuid], among
    them 32 hexadecimal digits with or without hyphens, bare, in braces or
    as a URN; [get_project_id] returns such a key unchanged and queries
    nothing, whatever aliases the store holds. *)
Theorem is_uuid_accepts_every_parsed_form env st rawKey :
  is_Some (UUID rawKey)
  \/ (exists s, hex32 s = true /\ In rawKey (spellings s)) ->
  BaseViewSet.is_uuid (PyStr rawKey) = true
  /\ BaseViewSet.get_project_id env (PyStr rawKey) st
     = (inr (PyStr rawKey), st, []).
Proof.
  intros H.
  assert (Hparsed : is_Some (UUID rawKey)).
  { destruct H as [H | (s & Hs & Hin)]; [exact H|].
    cbn in Hin. destruct Hin as [<- | [<- | [<- | []]]].
    - by apply UUID_hex32.
    - by apply UUID_braced.
    - by apply UUID_urn. }
  apply is_uuid_parsed in Hparsed. split; [exact Hparsed|].
  apply get_project_id_skip. rewrite Hparsed. apply andb_false_r.
Qed.

Lemma is_uuid_accepts_every_parsed_form_witness :
  BaseViewSet.is_uuid (PyStr ("{" +:+ digits_1 +:+ "}")) = true
  /\ BaseViewSet.get_project_id
       (with_rows acme
          [mkProjectIdentifier "acme" ("{" +:+ digits_1 +:+ "}") uuid_1])
       (PyStr ("{" +:+ digits_1 +:+ "}"))
       (fresh (path_kwargs "acme" ("{" +:+ digits_1 +:+ "}")))
     = (inr (PyStr ("{" +:+ digits_1 +:+ "}")),
        fresh (path_kwargs "acme" ("{" +:+ digits_1 +:+ "}")), []).
Proof.
  apply is_uuid_accepts_every_parsed_form.
  right. exists digits_1. split; [vm_compute; reflexivity|].
  right. left. reflexivity.
Defined.

(** ** LocaleContext: [TimezoneMixin.initial] *)





(** ** ErrorClassifier: the two [handle_exception] methods *)

(** What both methods do with the outcome of the framework's handler. *)
Lemma viewset_handle_exception_run env exc st :
  BaseViewSet.handle_exception env exc st =
  match APIView_handle_exception env exc with
  | inr response => (inr response, st, [])
  | inl e => (inr (spec_response e), st, viewset_events env e)
  end.
Proof.
  unfold BaseViewSet.handle_exception, viewset_events, spec_response,
    spec_classify. run.
  destruct (APIView_handle_exception env exc) as [e|response]; [|done].
  cbn. destruct (DEBUG env); cbn;
    destruct (isinstance e IntegrityError); cbn; try done;
    destruct (isinstance e ValidationError); cbn; try done;
    destruct (isinstance e ObjectDoesNotExist); cbn; try done;
    destruct (isinstance e KeyError); cbn; done.
Qed.

Lemma apiview_handle_exception_run env exc st :
  BaseAPIView.handle_exception env exc st =
  match APIView_handle_exception env exc with
  | inr response => (inr response, st, [])
  | inl e => (inr (spec_response e), st, apiview_events e)
  end.
Proof.
  unfold BaseAPIView.handle_exception, apiview_events, spec_response,
    spec_classify. run.
  destruct (APIView_handle_exception env exc) as [e|response]; [|done].
  cbn. destruct (isinstance e IntegrityError); cbn; try done;
    destruct (isinstance e ValidationError); cbn; try done;
    destruct (isinstance e ObjectDoesNotExist); cbn; try done;
    destruct (isinstance e KeyError); cbn; done.
Qed.

Example classify_integrity :
  spec_response (new_exc [IntegrityError])
  = error_response "The payload is not valid" 400.
Proof. reflexivity. Qed.

Example classify_validation :
  spec_response (new_exc [ValidationError])
  = error_response "Please provide valid detail" 400.
Proof. reflexivity. Qed.

Example classify_missing_object :
  spec_response (new_exc [ObjectDoesNotExist])
  = error_response "The required object does not exist." 404.
Proof. reflexivity. Qed.

Example classify_key_error :
  spec_response key_error
  = error_response "The required key does not exist." 400.
Proof. reflexivity. Qed.

Example classify_other :
  spec_response (new_exc [ValueError])
  = error_response "Something went wrong please try again later" 500.
Proof. reflexivity. Qed.

Example classify_first_match :
  spec_classify mixed_error = DataIntegrity.
Proof. reflexivity. Qed.

(** C2, as the code has it: neither method raises; an exception that the
    framework's handler raises again is classified by first match over the
    five kinds and answered with the table's status and the body
    [{"error": message}], the view left untouched; an exception that the
    framework's handler renders itself gets that response, unchanged. *)
Theorem handle_exception_classifies_reraised env exc st :
  (exists response,
     outcome (BaseViewSet.handle_exception env exc st) = inr response
     /\ outcome (BaseAPIView.handle_exception env exc st) = inr response)
  /\ (forall e, APIView_handle_exception env exc = inl e ->
      let response :=
        {| data := {[ "error" := (spec_table (spec_classify e)).1.2 ]};
           status := (spec_table (spec_classify e)).1.1 |} in
      outcome (BaseViewSet.handle_exception env exc st) = inr response
      /\ outcome (BaseAPIView.handle_exception env exc st) = inr response
      /\ final (BaseViewSet.handle_exception env exc st) = st
      /\ final (BaseAPIView.handle_exception env exc st) = st)
  /\ (forall response, APIView_handle_exception env exc = inr response ->
      BaseViewSet.handle_exception env exc st = (inr response, st, [])
      /\ BaseAPIView.handle_exception env exc st = (inr response, st, [])).
Proof.
  rewrite viewset_handle_exception_run, apiview_handle_exception_run.
  destruct (APIView_handle_exception env exc) as [e|response].
  - split; [by eexists|]. split; [|intros ? [=]].
    intros e' [= <-]. cbn. unfold spec_response.
    by destruct (spec_table (spec_classify e)) as [[code message] logged].
  - split; [by eexists|]. split; [intros ? [=]|].
    by intros ? [= <-].
Qed.

(** C2 as stated fails on an exception the framework renders: the refusal
    of an unauthenticated request is not one of the four named kinds, yet
    the answer is neither status 500 nor a body with the key [error]. *)
Lemma handle_exception_framework_response :
  spec_classify NotAuthenticated = Unclassified
  /\ BaseViewSet.handle_exception acme NotAuthenticated (fresh ∅)
     = (inr {| data := {[ "detail" :=
                   "Authentication credentials were not provided." ]};
               status := 403 |}, fresh ∅, [])
  /\ BaseAPIView.handle_exception acme NotAuthenticated (fresh ∅)
     = (inr {| data := {[ "detail" :=
                   "Authentication credentials were not provided." ]};
               status := 403 |}, fresh ∅, []).
Proof. repeat split. Qed.

(** C7 at the failing input: for a [KeyError] the view set logs the
    exception, the plain view answers the same 400 and logs nothing. *)
Theorem apiview_key_error_not_logged :
  BaseViewSet.handle_exception acme key_error (fresh ∅)
  = (inr (error_response "The required key does not exist." 400), fresh ∅,
     [Print "Server Error"; LogException key_error])
  /\ BaseAPIView.handle_exception acme key_error (fresh ∅)
     = (inr (error_response "The required key does not exist." 400),
        fresh ∅, []).
Proof. split; reflexivity. Qed.

(** Elsewhere both classifiers log what the table marks. *)
Lemma handle_exception_logs env exc e st :
  APIView_handle_exception env exc = inl e ->
  existsb is_log (events (BaseViewSet.handle_exception env exc st))
  = (spec_table (spec_classify e)).2
  /\ (spec_classify e <> MissingKey ->
      existsb is_log (events (BaseAPIView.handle_exception env exc st))
      = (spec_table (spec_classify e)).2).
Proof.
  intros H. rewrite viewset_handle_exception_run, apiview_handle_exception_run, H.
  unfold viewset_events, apiview_events. cbn.
  destruct (DEBUG env), (spec_classify e); cbn; done.
Qed.

(** ** QueryContextAccessors: [fields] and [expand] *)

Lemma split_free w : comma_free w = true -> split "," w = [w].
Proof.
  induction w as [|c w IH]; [done|].
  cbn. intros [Hc Hw]%andb_true_iff.
  apply negb_true_iff in Hc. rewrite Hc, (IH Hw). reflexivity.
Qed.

Lemma split_entry w rest :
  comma_free w = true ->
  split "," (w ++ ","%char :: rest) = w :: split "," rest.
Proof.
  induction w as [|c w IH]; [done|].
  cbn. intros [Hc Hw]%andb_true_iff.
  apply negb_true_iff in Hc. rewrite Hc, (IH Hw). reflexivity.
Qed.

(** Splitting undoes joining. *)
Lemma split_join parts :
  parts <> [] -> forallb comma_free parts = true ->
  split "," (join "," parts) = parts.
Proof.
  induction parts as [|w parts IH]; [done|]. intros _.
  cbn [forallb]. intros [Hw Hparts]%andb_true_iff.
  destruct parts as [|w' parts]; [by apply split_free|].
  change (join "," (w :: w' :: parts))
    with (w ++ ","%char :: join "," (w' :: parts)).
  rewrite (split_entry _ _ Hw), IH; done.
Qed.

(** Joining undoes splitting, and no piece holds a comma. *)
Lemma join_split s :
  join "," (split "," s) = s
  /\ forallb comma_free (split "," s) = true /\ split "," s <> [].
Proof.
  induction s as [|c s (IH1 & IH2 & IH3)]; [done|].
  cbn [split]. destruct (Ascii.eqb_spec c ",") as [->|Hc].
  - split; [|done]. destruct (split "," s) as [|w ws]; [done|].
    cbn in *. by rewrite IH1.
  - destruct (split "," s) as [|w ws]; [done|].
    assert (Hfree : negb (Ascii.eqb c ",") = true).
    { apply negb_true_iff. by apply Ascii.eqb_neq. }
    split; [|split; [|done]].
    + destruct ws; cbn in *; by rewrite <- IH1.
    + cbn in *. by rewrite Hfree.
Qed.

Lemma fields_run request :
  BaseViewSet.fields request
  = null_if_empty
      (List.filter nonempty
         (map chars_str
            (split "," (str_chars (BaseViewSet.GET_get request "fields")))))
  /\ BaseViewSet.expand request
     = null_if_empty
         (List.filter nonempty
            (map chars_str
               (split "," (str_chars (BaseViewSet.GET_get request "expand")))))
  /\ BaseAPIView.fields request = BaseViewSet.fields request
  /\ BaseAPIView.expand request = BaseViewSet.expand request.
Proof.
  unfold BaseViewSet.fields, BaseViewSet.expand, BaseAPIView.fields,
    BaseAPIView.expand, null_if_empty, nonempty.
  repeat split; by destruct (List.filter _ _).
Qed.

Lemma comma_joined_split entries :
  entries <> [] ->
  forallb comma_free (map str_chars entries) = true ->
  map chars_str (split "," (str_chars (comma_joined entries))) = entries.
Proof.
  intros Hne Hfree. unfold comma_joined. rewrite str_chars_of_chars.
  rewrite split_join; [| by destruct entries | done].
  rewrite map_map. rewrite <- (map_id entries) at 2.
  apply map_ext. intros s. apply string_of_list_ascii_of_string.
Qed.

Lemma comma_joined_exists raw :
  exists entries,
    entries <> [] /\ forallb comma_free (map str_chars entries) = true
    /\ raw = comma_joined entries.
Proof.
  destruct (join_split (str_chars raw)) as (Hjoin & Hfree & Hne).
  exists (map chars_str (split "," (str_chars raw))).
  assert (Hid : map str_chars (map chars_str (split "," (str_chars raw)))
                = split "," (str_chars raw)).
  { rewrite map_map. rewrite <- (map_id (split _ _)) at 2.
    apply map_ext. intros l. apply str_chars_of_chars. }
  split; [|split].
  - destruct (split "," (str_chars raw)); [done|]. discriminate.
  - by rewrite Hid.
  - unfold comma_joined. rewrite Hid, Hjoin. unfold chars_str, str_chars.
    by rewrite string_of_list_ascii_of_string.
Qed.

(** C8: in both classes [fields] and [expand] read their query parameter
    (the empty string when it is absent) as a comma-separated list: every
    value is the comma-joined text of a unique list of comma-free entries,
    and the accessor returns the non-empty ones in their order, or [None]
    when none is left, never an empty list. *)
Theorem fields_and_expand_parse request :
  (BaseAPIView.fields request = BaseViewSet.fields request
   /\ BaseAPIView.expand request = BaseViewSet.expand request)
  /\ (BaseViewSet.fields request <> Some []
      /\ BaseViewSet.expand request <> Some [])
  /\ (exists entries,
        entries <> [] /\ forallb comma_free (map str_chars entries) = true
        /\ BaseViewSet.GET_get request "fields" = comma_joined entries)
  /\ (exists entries,
        entries <> [] /\ forallb comma_free (map str_chars entries) = true
        /\ BaseViewSet.GET_get request "expand" = comma_joined entries)
  /\ (forall entries,
        entries <> [] -> forallb comma_free (map str_chars entries) = true ->
        (BaseViewSet.GET_get request "fields" = comma_joined entries ->
         BaseViewSet.fields request
         = null_if_empty (List.filter nonempty entries))
        /\ (BaseViewSet.GET_get request "expand" = comma_joined entries ->
            BaseViewSet.expand request
            = null_if_empty (List.filter nonempty entries)))
  /\ (BaseViewSet.GET_get request "fields" = "a,b,,c" ->
      BaseViewSet.fields request = Some ["a"; "b"; "c"])
  /\ (BaseViewSet.GET_get request "fields" = "" ->
      BaseViewSet.fields request = None)
  /\ (BaseViewSet.GET_get request "expand" = "a,b,,c" ->
      BaseViewSet.expand request = Some ["a"; "b"; "c"])
  /\ (BaseViewSet.GET_get request "expand" = "" ->
      BaseViewSet.expand request = None).
Proof.
  destruct (fields_run request) as (Hf & He & Haf & Hae).
  split; [done|]. split.
  { rewrite Hf, He. clear. unfold null_if_empty.
    split; by destruct (List.filter nonempty _). }
  split; [apply comma_joined_exists|]. split; [apply comma_joined_exists|].
  split.
  { intros entries Hne Hfree. rewrite Hf, He.
    split; intros ->; by rewrite comma_joined_split. }
  rewrite Hf, He. repeat split; intros ->; reflexivity.
Qed.

Example fields_of_request :
  BaseViewSet.fields (request_of alice) = Some ["a"; "b"; "c"]
  /\ BaseViewSet.expand (request_of alice) = None.
Proof. split; reflexivity. Qed.

(** ** RequestPipeline: the two [dispatch] methods *)

Lemma quiet_app tr1 tr2 : quiet (tr1 ++ tr2) = quiet tr1 && quiet tr2.
Proof. apply forallb_app. Qed.

Lemma quiet_no_steps tr :
  quiet tr = true ->
  locale_precedes_handler tr = true
  /\ existsb is_locale_step tr = false /\ existsb is_handler tr = false.
Proof.
  induction tr as [|ev tr IH]; [done|].
  cbn. intros [Hev Htr]%andb_true_iff. apply negb_true_iff in Hev.
  apply orb_false_iff in Hev as [-> ->]. by apply IH.
Qed.

Lemma quiet_prefix tr1 tr2 :
  quiet tr1 = true ->
  locale_precedes_handler (tr1 ++ tr2) = locale_precedes_handler tr2
  /\ existsb is_locale_step (tr1 ++ tr2) = existsb is_locale_step tr2
  /\ existsb is_handler (tr1 ++ tr2) = existsb is_handler tr2.
Proof.
  induction tr1 as [|ev tr1 IH]; [done|].
  cbn. intros [Hev Htr]%andb_true_iff. apply negb_true_iff in Hev.
  apply orb_false_iff in Hev as [-> ->]. by apply IH.
Qed.

Lemma quiet_suffix tr1 tr2 :
  quiet tr2 = true ->
  locale_precedes_handler tr1 = true ->
  locale_precedes_handler (tr1 ++ tr2) = true.
Proof.
  intros H2. induction tr1 as [|ev tr1 IH]; cbn.
  - intros _. by apply quiet_no_steps.
  - destruct (is_locale_step ev); [done|]. by destruct (is_handler ev).
Qed.

Lemma viewset_classifier env : classifier (BaseViewSet.handle_exception env).
Proof.
  intros e st. rewrite viewset_handle_exception_run.
  destruct (APIView_handle_exception env e) as [e'|r];
    [|by exists r, []].
  eexists _, _. split; [reflexivity|]. unfold viewset_events.
  by destruct (DEBUG env), (spec_table (spec_classify e')).2.
Qed.

Lemma apiview_classifier env : classifier (BaseAPIView.handle_exception env).
Proof.
  intros e st. rewrite apiview_handle_exception_run.
  destruct (APIView_handle_exception env e) as [e'|r];
    [|by exists r, []].
  eexists _, _. split; [reflexivity|]. unfold apiview_events.
  by destruct (spec_classify e').
Qed.

(** [initial] either raises before it touches the zone, or performs exactly
    one locale step. *)
Lemma initial_run env request st :
  (exists e, TimezoneMixin.initial env request st = (inl e, st, []))
  \/ (exists zone ev,
        TimezoneMixin.initial env request st
        = (inr tt, set_timezone zone st, [ev])
        /\ is_locale_step ev = true).
Proof.
  unfold TimezoneMixin.initial, ZoneInfo, timezone_activate,
    timezone_deactivate. run.
  destruct (APIView_initial env request) as [e|[]]; [left; by eexists|].
  cbn. destruct (is_authenticated (user request)).
  - destruct (zoneinfo_load env _) as [e|[]]; cbn; [left|right]; by eauto.
  - right. by eauto.
Qed.

Lemma APIView_dispatch_ordered env h request kw st :
  classifier h ->
  locale_ordered st
    (APIView_dispatch env (TimezoneMixin.initial env) h request kw st).
Proof.
  intros Hh. unfold APIView_dispatch. run.
  destruct (initial_run env request (set_kwargs kw st))
    as [(e & ->) | (zone & ev & -> & Hev)]; cbn.
  - destruct (Hh e (set_kwargs kw st)) as (resp & tr & -> & Hq).
    destruct (quiet_no_steps _ Hq) as (? & ? & ?).
    destruct (finalize_response env resp);
      unfold locale_ordered, events, final; cbn;
      rewrite ?app_nil_r; by repeat split.
  - destruct (handler env request kw _) as [e|resp]; cbn.
    + destruct (Hh e (set_timezone zone (set_kwargs kw st)))
        as (resp & tr & -> & Hq).
      destruct (finalize_response env resp);
        unfold locale_ordered, events, final; cbn; rewrite Hev; cbn;
        by split.
    + destruct (finalize_response env resp);
        unfold locale_ordered, events, final; cbn; rewrite Hev; cbn;
        by split.
Qed.

Lemma get_project_id_quiet env v st :
  exists r ev,
    BaseViewSet.get_project_id env v st = (r, st, ev) /\ quiet ev = true.
Proof.
  destruct (truthy v && negb (BaseViewSet.is_uuid v)) eqn:Hcond.
  - destruct v as [|s]; [done|].
    rewrite (get_project_id_query _ _ _ Hcond). by eexists _, _.
  - rewrite (get_project_id_skip _ _ _ Hcond). by eexists _, _.
Qed.

Lemma get_issue_id_run st v :
  BaseViewSet.get_issue_id v st = (inr v, st, []).
Proof.
  unfold BaseViewSet.get_issue_id.
  destruct (truthy v && negb (BaseViewSet.is_uuid v)); reflexivity.
Qed.

(** The part of a [dispatch] body behind identifier resolution. *)
Lemma dispatch_tail_ordered env h request kw st0 st :
  classifier h ->
  current_timezone st = current_timezone st0 ->
  locale_ordered st0
    (try_except
       (response ← APIView_dispatch env (TimezoneMixin.initial env) h
                     request kw;
        when (DEBUG env)
          (emit (PrintQueries (method request) (full_path request)));;
        mret (RetResponse response))
       (fun exc => response ← h exc; mret (RetException exc)) st).
Proof.
  intros Hh Htz.
  pose proof (APIView_dispatch_ordered env h request kw st Hh) as [Hord Hnone].
  run.
  destruct (APIView_dispatch env (TimezoneMixin.initial env) h request kw st)
    as [[[e|resp] st1] ev]; unfold events, final in *; cbn in *.
  - destruct (Hh e st1) as (resp & tr & -> & Hq). cbn.
    unfold locale_ordered, events, final; cbn. rewrite app_nil_r.
    split; [by apply quiet_suffix|].
    destruct (quiet_no_steps _ Hq) as (_ & Hl & Hhd).
    rewrite !existsb_app, Hl, Hhd, !orb_false_r, <- Htz. exact Hnone.
  - unfold locale_ordered, events, final.
    destruct (DEBUG env); cbn; rewrite ?app_nil_r.
    + split; [by apply quiet_suffix|].
      rewrite !existsb_app, !orb_false_r, <- Htz. exact Hnone.
    + split; [done|]. by rewrite <- Htz.
Qed.

Lemma try_bind {A B} (m : M A) (k : A -> M B) (h : Exc -> M B) st :
  try_except (m ≫= k) h st =
  match m st with
  | (inl e, st1, ev1) => prepend ev1 (h e st1)
  | (inr a, st1, ev1) => prepend ev1 (try_except (k a) h st1)
  end.
Proof.
  unfold prepend. run.
  destruct (m st) as [[[e|a] st1] ev1]; cbn.
  - by destruct (h e st1) as [[? ?] ?].
  - destruct (k a st1) as [[[e|b] st2] ev2]; cbn; [|done].
    destruct (h e st2) as [[? ?] ?]; cbn. by rewrite app_assoc.
Qed.

Lemma locale_ordered_prepend {A} st0 ev
    (r : (Exc + A) * State * list Event) :
  quiet ev = true -> locale_ordered st0 r -> locale_ordered st0 (prepend ev r).
Proof.
  intros Hq [H1 H2]. unfold locale_ordered, prepend, events, final in *.
  cbn. destruct (quiet_prefix ev r.2 Hq) as (-> & -> & ->). done.
Qed.

Lemma classifier_ordered {A} (h : Exc -> M Response) (f : Exc -> A) e st0 st :
  classifier h ->
  current_timezone st = current_timezone st0 ->
  locale_ordered st0 ((response ← h e; mret (f e)) st).
Proof.
  intros Hh Htz. run. destruct (Hh e st) as (resp & tr & -> & Hq). cbn.
  unfold locale_ordered, events, final. cbn. rewrite app_nil_r.
  destruct (quiet_no_steps _ Hq) as (? & ? & ?). done.
Qed.

(** One identifier-resolution step of [BaseViewSet.dispatch] in front of
    the rest of the body. *)
Lemma resolve_step_ordered {A} st0 key (resolve : Value -> M Value)
    (rest : M A) (h : Exc -> M A) :
  (forall v st, exists r ev, resolve v st = (r, st, ev) /\ quiet ev = true) ->
  (forall e st, current_timezone st = current_timezone st0 ->
                locale_ordered st0 (h e st)) ->
  (forall st, current_timezone st = current_timezone st0 ->
              locale_ordered st0 (try_except rest h st)) ->
  forall st, current_timezone st = current_timezone st0 ->
    locale_ordered st0
      (try_except
         (v ← gets (fun st => dict_get (kwargs st) key);
          (if truthy v then
             resolved ← resolve v;
             BaseViewSet.set_item key resolved
           else mret tt);;
          rest) h st).
Proof.
  intros Hres Hh Hrest st Htz.
  rewrite try_bind. cbn [gets].
  apply (locale_ordered_prepend st0 []); [done|].
  rewrite try_bind.
  destruct (truthy (dict_get (kwargs st) key)).
  - unfold BaseViewSet.set_item. run.
    destruct (Hres (dict_get (kwargs st) key) st) as (r & ev & -> & Hq).
    destruct r as [e|v]; cbn.
    + apply locale_ordered_prepend; [done|]. by apply Hh.
    + rewrite app_nil_r. apply locale_ordered_prepend; [done|].
      by apply Hrest.
  - cbn. apply (locale_ordered_prepend st0 []); [done|]. by apply Hrest.
Qed.

Lemma viewset_dispatch_ordered env request kw st :
  locale_ordered st (BaseViewSet.dispatch env request kw st).
Proof.
  pose proof (viewset_classifier env) as Hh.
  unfold BaseViewSet.dispatch.
  apply resolve_step_ordered; [apply get_project_id_quiet | | | done].
  { intros e st1 Htz. by apply classifier_ordered. }
  apply resolve_step_ordered.
  - intros v st1. rewrite get_issue_id_run. by eexists _, _.
  - intros e st1 Htz. by apply classifier_ordered.
  - intros st1 Htz. by apply dispatch_tail_ordered.
Qed.

Lemma apiview_dispatch_ordered env request kw st :
  locale_ordered st (BaseAPIView.dispatch env request kw st).
Proof.
  unfold BaseAPIView.dispatch.
  apply dispatch_tail_ordered; [apply apiview_classifier | done].
Qed.

Lemma bind_run {A B} (m : M A) (k : A -> M B) st :
  (m ≫= k) st =
  match m st with
  | (inl e, st1, ev1) => (inl e, st1, ev1)
  | (inr a, st1, ev1) => prepend ev1 (k a st1)
  end.
Proof.
  unfold prepend. run. destruct (m st) as [[[e|a] st1] ev1]; [done|].
  by destruct (k a st1) as [[? ?] ?].
Qed.

(** When the project key does not resolve, the body of
    [BaseViewSet.dispatch] stops there: the exception goes to
    [handle_exception] and what is returned is the exception. *)
Lemma viewset_dispatch_unresolved env request kw st e ev :
  truthy (dict_get (kwargs st) "project_id") = true ->
  BaseViewSet.get_project_id env (dict_get (kwargs st) "project_id") st
  = (inl e, st, ev) ->
  BaseViewSet.dispatch env request kw st
  = prepend ev
      ((response ← BaseViewSet.handle_exception env e;
        mret (RetException e)) st).
Proof.
  intros Htruthy Hget. unfold BaseViewSet.dispatch.
  rewrite try_bind. cbn [gets]. rewrite try_bind, Htruthy, bind_run, Hget.
  unfold prepend. cbn. reflexivity.
Qed.

(** A [try] whose handler returns never raises. *)
Lemma try_except_returns {A} (m : M A) (h : Exc -> M A) st :
  (forall e st1, exists a, outcome (h e st1) = inr a) ->
  exists a, outcome (try_except m h st) = inr a.
Proof.
  intros Hh. unfold try_except, outcome.
  destruct (m st) as [[[e|a] st1] ev1]; [|by exists a].
  destruct (Hh e st1) as [a Ha]. unfold outcome in Ha.
  destruct (h e st1) as [[r st2] ev2]. cbn in *. by exists a.
Qed.

(** Neither [dispatch] lets an exception out. *)
Lemma dispatch_never_raises env request kw st :
  (exists r, outcome (BaseViewSet.dispatch env request kw st) = inr r)
  /\ (exists r, outcome (BaseAPIView.dispatch env request kw st) = inr r).
Proof.
  split; apply try_except_returns; intros e st1.
  - destruct (viewset_classifier env e st1) as (resp & tr & H & _).
    rewrite bind_run, H. by eexists.
  - destruct (apiview_classifier env e st1) as (resp & tr & H & _).
    rewrite bind_run, H. by eexists.
Qed.

(** C1 at the failing inputs: an alias that the tenant does not have makes
    [BaseViewSet.dispatch] return the [ObjectDoesNotExist] object itself,
    after the 404 response was computed and dropped; an exception of the
    framework's own [dispatch] comes back from [BaseAPIView.dispatch] the
    same way. *)
Theorem dispatch_returns_raw_exception :
  BaseViewSet.dispatch acme (request_of alice) (path_kwargs "other" "ENG")
    (fresh (path_kwargs "other" "ENG"))
  = (inr (RetException (new_exc [ObjectDoesNotExist])),
     fresh (path_kwargs "other" "ENG"),
     [Query (PyStr "other") "ENG"; Print "Server Error"])
  /\ BaseViewSet.handle_exception acme (new_exc [ObjectDoesNotExist])
       (fresh (path_kwargs "other" "ENG"))
     = (inr (error_response "The required object does not exist." 404),
        fresh (path_kwargs "other" "ENG"), [Print "Server Error"])
  /\ outcome (BaseAPIView.dispatch careless (request_of alice) ∅ (fresh ∅))
     = inr (RetException assertion_error).
Proof. repeat split; vm_compute; reflexivity. Qed.

(** A request that raises nothing gets the handler's response. *)
Example dispatch_success :
  BaseViewSet.dispatch acme (request_of alice) (path_kwargs "acme" "ENG")
    (fresh (path_kwargs "acme" "ENG"))
  = (inr (RetResponse ok_response),
     {| kwargs := path_kwargs "acme" "ENG";
        current_timezone := Some "Asia/Kolkata" |},
     [Query (PyStr "acme") "ENG"; Activate "Asia/Kolkata";
      HandlerInvoked (path_kwargs "acme" "ENG")]).
Proof. vm_compute. reflexivity. Qed.

(** C5 as stated fails where identifier resolution fails: the request ends
    without any locale step, and the zone of the previous request stays
    active on the thread. *)
Lemma dispatch_unresolved_runs_no_locale_step :
  events (BaseViewSet.dispatch acme (request_of alice)
            (path_kwargs "other" "ENG") (stale (path_kwargs "other" "ENG")))
  = [Query (PyStr "other") "ENG"; Print "Server Error"]
  /\ existsb is_locale_step
       (events (BaseViewSet.dispatch acme (request_of alice)
                  (path_kwargs "other" "ENG")
                  (stale (path_kwargs "other" "ENG")))) = false
  /\ current_timezone
       (final (BaseViewSet.dispatch acme (request_of alice)
                 (path_kwargs "other" "ENG")
                 (stale (path_kwargs "other" "ENG")))) = Some "UTC".
Proof. repeat split; vm_compute; reflexivity. Qed.

(** C5, as the code has it: in both pipelines a handler invocation is
    preceded by a locale step of the same request, and a request without a
    locale step has no handler invocation and leaves the thread's zone as
    it found it; a request whose project key does not resolve is such a
    request. *)
Theorem locale_step_precedes_handler env request kw st :
  locale_ordered st (BaseViewSet.dispatch env request kw st)
  /\ locale_ordered st (BaseAPIView.dispatch env request kw st)
  /\ (forall e ev,
        truthy (dict_get (kwargs st) "project_id") = true ->
        BaseViewSet.get_project_id env (dict_get (kwargs st) "project_id") st
        = (inl e, st, ev) ->
        existsb is_locale_step
          (events (BaseViewSet.dispatch env request kw st)) = false).
Proof.
  split; [apply viewset_dispatch_ordered|].
  split; [apply apiview_dispatch_ordered|].
  intros e ev Htruthy Hget.
  rewrite (viewset_dispatch_unresolved _ _ _ _ _ _ Htruthy Hget).
  destruct (get_project_id_quiet env (dict_get (kwargs st) "project_id") st)
    as (r & ev' & Hget' & Hq).
  rewrite Hget in Hget'. injection Hget' as <- <-.
  rewrite bind_run.
  destruct (viewset_classifier env e st) as (resp & tr & -> & Hq').
  unfold prepend, events. cbn. rewrite app_nil_r, existsb_app.
  destruct (quiet_no_steps _ Hq) as (_ & -> & _).
  by destruct (quiet_no_steps _ Hq') as (_ & -> & _).
Qed.


(** * Further properties *)

(** ** Keys that cannot be UUIDs *)

Lemma length_str_chars s : length (str_chars s) = String.length s.
Proof.
  unfold str_chars. induction s as [|c s IH]; [done|]. cbn. by rewrite IH.
Qed.

Lemma replace_scan_length old s : forall skip,
  (length (replace_scan skip old [] s) <= length s)%nat.
Proof.
  induction s as [|c s IH]; intros skip; [done|].
  cbn [replace_scan]. destruct skip as [|k].
  - destruct (startswith old (c :: s)); cbn [app length].
    + specialize (IH (length old - 1)%nat). lia.
    + specialize (IH 0%nat). lia.
  - specialize (IH k). cbn [length]. lia.
Qed.

Lemma replace_length old s :
  (length (replace old [] s) <= length s)%nat.
Proof.
  destruct old as [|c old]; [|apply replace_scan_length].
  cbn. induction s as [|x s IH]; cbn; lia.
Qed.

Lemma lstrip_length set s : (length (lstrip set s) <= length s)%nat.
Proof.
  induction s as [|c s IH]; [done|].
  cbn [lstrip]. destruct (char_in c set); cbn [length]; lia.
Qed.

Lemma strip_length set s : (length (strip set s) <= length s)%nat.
Proof.
  unfold strip, rstrip. rewrite length_rev.
  etransitivity; [apply lstrip_length|]. rewrite length_rev.
  apply lstrip_length.
Qed.

(** The constructor never accepts a text of fewer than 32 characters. *)
Lemma UUID_short s : (String.length s < 32)%nat -> UUID s = None.
Proof.
  intros Hlen. rewrite UUID_unfold. unfold parse32.
  set (hex := replace (str_chars "-") [] _).
  assert (Hhex : (length hex <= String.length s)%nat).
  { subst hex. rewrite <- length_str_chars.
    etransitivity; [apply replace_length|].
    etransitivity; [apply strip_length|].
    etransitivity; [apply replace_length|]. apply replace_length. }
  destruct (Nat.eqb_spec (length hex) 32) as [E|_]; [lia|reflexivity].
Qed.

(** X1: a non-empty key of fewer than 32 characters never passes
    [is_uuid], so [get_project_id] always takes it for an alias: it makes
    exactly one query, for that text under the tenant of the [slug]
    parameter, and leaves the view as it is. *)
Theorem short_key_is_always_looked_up env st key :
  key <> "" ->
  (String.length key < 32)%nat ->
  BaseViewSet.is_uuid (PyStr key) = false
  /\ events (BaseViewSet.get_project_id env (PyStr key) st)
     = [Query (dict_get (kwargs st) "slug") key]
  /\ final (BaseViewSet.get_project_id env (PyStr key) st) = st.
Proof.
  intros Hne Hlen.
  assert (Hnot : BaseViewSet.is_uuid (PyStr key) = false).
  { unfold BaseViewSet.is_uuid. cbn [str]. by rewrite (UUID_short _ Hlen). }
  split; [exact Hnot|].
  rewrite get_project_id_query; [done|].
  rewrite Hnot. cbn. by destruct (String.eqb_spec key "").
Qed.

Lemma short_key_is_always_looked_up_witness :
  BaseViewSet.is_uuid (PyStr "ENG") = false
  /\ events (BaseViewSet.get_project_id acme (PyStr "ENG")
               (fresh (path_kwargs "acme" "ENG")))
     = [Query (dict_get (kwargs (fresh (path_kwargs "acme" "ENG"))) "slug")
          "ENG"]
  /\ final (BaseViewSet.get_project_id acme (PyStr "ENG")
              (fresh (path_kwargs "acme" "ENG")))
     = fresh (path_kwargs "acme" "ENG").
Proof.
  apply short_key_is_always_looked_up; [discriminate|].
  vm_compute. lia.
Defined.

(** ** What [get_project_id] does and does not do *)

(** X2: [get_project_id] never changes the view, emits nothing but at most
    one query, which is for the text of its argument under the tenant of the
    [slug] parameter, and the only exception it raises is a bare
    [ObjectDoesNotExist], after that query. *)
Theorem get_project_id_effects env v st :
  final (BaseViewSet.get_project_id env v st) = st
  /\ (events (BaseViewSet.get_project_id env v st) = []
      \/ events (BaseViewSet.get_project_id env v st)
         = [Query (dict_get (kwargs st) "slug") (str v)])
  /\ (forall e, outcome (BaseViewSet.get_project_id env v st) = inl e ->
      e = new_exc [ObjectDoesNotExist]
      /\ events (BaseViewSet.get_project_id env v st)
         = [Query (dict_get (kwargs st) "slug") (str v)]).
Proof.
  destruct (truthy v && negb (BaseViewSet.is_uuid v)) eqn:Hcond.
  - destruct v as [|s]; [done|].
    rewrite (get_project_id_query _ _ _ Hcond).
    unfold final, events, outcome. cbn.
    split; [done|]. split; [by right|].
    intros e. destruct (head _); [done|]. by intros [= <-].
  - rewrite (get_project_id_skip _ _ _ Hcond).
    unfold final, events, outcome. cbn. split; [done|]. split; [by left|done].
Qed.

(** X3: when the identifiers in the store are UUID texts, resolution is
    idempotent: whatever [get_project_id] returns, it returns unchanged
    when asked again, and the second call makes no query. *)
Theorem get_project_id_idempotent env st v resolved :
  Forall (fun row => BaseViewSet.is_uuid (PyStr (project_id row)) = true)
    (ProjectIdentifier_objects env) ->
  outcome (BaseViewSet.get_project_id env v st) = inr resolved ->
  BaseViewSet.get_project_id env resolved st = (inr resolved, st, []).
Proof.
  intros Hrows Hout.
  destruct (truthy v && negb (BaseViewSet.is_uuid v)) eqn:Hcond.
  - destruct v as [|s]; [done|].
    rewrite (get_project_id_query _ _ _ Hcond) in Hout.
    unfold outcome in Hout. cbn in Hout.
    destruct (head _) as [row|] eqn:Hhead; [|done].
    injection Hout as <-.
    assert (Hin : In row (ProjectIdentifier_objects env)).
    { destruct (List.filter _ _) as [|r rs] eqn:Hf; [done|].
      injection Hhead as ->.
      assert (Hr : In row (List.filter
                (matches (dict_get (kwargs st) "slug") s)
                (ProjectIdentifier_objects env))) by (rewrite Hf; by left).
      by apply filter_In in Hr as [? _]. }
    apply get_project_id_skip.
    rewrite (proj1 (List.Forall_forall _ _) Hrows row Hin).
    apply andb_false_r.
  - rewrite (get_project_id_skip _ _ _ Hcond) in Hout.
    injection Hout as <-. by apply get_project_id_skip.
Qed.

Lemma get_project_id_idempotent_witness :
  BaseViewSet.get_project_id acme (PyStr uuid_1)
    (fresh (path_kwargs "acme" "ENG"))
  = (inr (PyStr uuid_1), fresh (path_kwargs "acme" "ENG"), []).
Proof.
  apply (get_project_id_idempotent acme (fresh (path_kwargs "acme" "ENG"))
           (PyStr "ENG")).
  - repeat constructor.
  - vm_compute. reflexivity.
Defined.

(** ** What the pipelines hand back *)

(** X4: neither [dispatch] lets an exception propagate, and
    [BaseAPIView.dispatch] hands back exactly what the framework's
    [dispatch] produced: its response, with the state it left, or, when it
    raised, the exception object. *)
Theorem dispatch_hands_back_inner_outcome env request kw st :
  (exists ret, outcome (BaseViewSet.dispatch env request kw st) = inr ret)
  /\ (exists ret, outcome (BaseAPIView.dispatch env request kw st) = inr ret)
  /\ (forall response,
        outcome (APIView_dispatch env (TimezoneMixin.initial env)
                   (BaseAPIView.handle_exception env) request kw st)
        = inr response ->
        outcome (BaseAPIView.dispatch env request kw st)
        = inr (RetResponse response)
        /\ final (BaseAPIView.dispatch env request kw st)
           = final (APIView_dispatch env (TimezoneMixin.initial env)
                      (BaseAPIView.handle_exception env) request kw st))
  /\ (forall e,
        outcome (APIView_dispatch env (TimezoneMixin.initial env)
                   (BaseAPIView.handle_exception env) request kw st)
        = inl e ->
        outcome (BaseAPIView.dispatch env request kw st)
        = inr (RetException e)).
Proof.
  destruct (dispatch_never_raises env request kw st) as [H1 H2].
  split; [exact H1|]. split; [exact H2|].
  unfold BaseAPIView.dispatch. rewrite try_bind.
  destruct (APIView_dispatch _ _ _ _ _ _) as [[[e|r] st1] ev1];
    unfold outcome, final; cbn.
  - split; [done|]. intros e' [= <-].
    destruct (apiview_classifier env e st1) as (resp & tr & H & _).
    rewrite bind_run, H. reflexivity.
  - split; [|done]. intros r' [= <-]. run. by destruct (DEBUG env).
Qed.

(** ** The locale step inside the pipeline *)

(** X5: when [TimezoneMixin.initial] raises, it has done nothing: the view
    and the thread's zone are as before and no event happened; what it
    raises is either the exception of the framework's [initial] or, when
    that one passed and the principal is authenticated, the exception that
    [ZoneInfo] raised for the principal's zone name. *)
Theorem initial_raises_before_touching_zone env request st e :
  outcome (TimezoneMixin.initial env request st) = inl e ->
  TimezoneMixin.initial env request st = (inl e, st, [])
  /\ (APIView_initial env request = inl e
      \/ (APIView_initial env request = inr tt
          /\ is_authenticated (user request) = true
          /\ zoneinfo_load env (user_timezone (user request)) = inl e)).
Proof.
  unfold TimezoneMixin.initial, ZoneInfo, timezone_activate,
    timezone_deactivate, outcome. run.
  destruct (APIView_initial env request) as [e'|[]]; cbn.
  - intros [= <-]. split; [done|by left].
  - destruct (is_authenticated (user request)); cbn; [|done].
    destruct (zoneinfo_load env _) as [e'|[]]; cbn; [|done].
    intros [= <-]. split; [done|]. right. done.
Qed.

Lemma initial_raises_before_touching_zone_witness :
  TimezoneMixin.initial acme (request_of martian) (stale ∅)
  = (inl ZoneInfoNotFound, stale ∅, [])
  /\ (APIView_initial acme (request_of martian) = inl ZoneInfoNotFound
      \/ (APIView_initial acme (request_of martian) = inr tt
          /\ is_authenticated (user (request_of martian)) = true
          /\ zoneinfo_load acme (user_timezone (user (request_of martian)))
             = inl ZoneInfoNotFound)).
Proof.
  apply initial_raises_before_touching_zone. reflexivity.
Defined.

Lemma initial_zone_load_fails env request st e :
  APIView_initial env request = inr tt ->
  is_authenticated (user request) = true ->
  zoneinfo_load env (user_timezone (user request)) = inl e ->
  TimezoneMixin.initial env request st = (inl e, st, []).
Proof.
  intros H1 H2 H3. unfold TimezoneMixin.initial, ZoneInfo. run.
  by rewrite H1, H2, H3.
Qed.

Lemma apiview_events_quiet e :
  existsb is_handler (apiview_events e) = false
  /\ existsb is_locale_step (apiview_events e) = false.
Proof. unfold apiview_events. by destruct (spec_classify e). Qed.

(** X6: when the framework's [initial] lets the request through, the
    principal is authenticated and [ZoneInfo] raises for the stored zone
    name, and provided the framework's handler raises that exception again
    and the classified response is finalized as it is,
    [BaseAPIView.dispatch] answers with the response the classifier gives
    that exception (400 and the missing-key message for a zone the
    database lacks, since [ZoneInfoNotFoundError] is a [KeyError]; 500 and
    the fallback message, with a log call, for a malformed zone name,
    which is a [ValueError]): the handler of the view is never invoked, no
    zone is activated or deactivated, and the thread's zone stays what it
    was. *)
Theorem zone_load_failure_is_classified env request kw st e :
  APIView_initial env request = inr tt ->
  is_authenticated (user request) = true ->
  zoneinfo_load env (user_timezone (user request)) = inl e ->
  APIView_handle_exception env e = inl e ->
  finalize_response env (spec_response e) = inr (spec_response e) ->
  outcome (BaseAPIView.dispatch env request kw st)
  = inr (RetResponse (spec_response e))
  /\ List.filter is_log (events (BaseAPIView.dispatch env request kw st))
     = apiview_events e
  /\ existsb is_handler (events (BaseAPIView.dispatch env request kw st))
     = false
  /\ existsb is_locale_step (events (BaseAPIView.dispatch env request kw st))
     = false
  /\ current_timezone (final (BaseAPIView.dispatch env request kw st))
     = current_timezone st.
Proof.
  intros H1 H2 H3 H4 H5.
  assert (E : BaseAPIView.dispatch env request kw st
              = (inr (RetResponse (spec_response e)),
                 set_kwargs kw st,
                 apiview_events e
                 ++ if DEBUG env
                    then [PrintQueries (method request) (full_path request)]
                    else [])).
  { unfold BaseAPIView.dispatch, APIView_dispatch.
    rewrite try_bind, bind_run. cbn [modify prepend fst snd app].
    rewrite bind_run, try_bind, (initial_zone_load_fails _ _ _ _ H1 H2 H3).
    rewrite apiview_handle_exception_run, H4.
    cbn [prepend fst snd app]. unfold lift at 1. rewrite H5.
    cbn [prepend fst snd app]. rewrite try_bind.
    unfold lift, when, emit, prepend, try_except.
    destruct (DEBUG env); cbn [fst snd mret ret];
      by rewrite ?app_nil_r, <- ?app_assoc. }
  rewrite E. unfold outcome, events, final. cbn [fst snd].
  destruct (apiview_events_quiet e) as [Hh Hl].
  rewrite List.filter_app, !existsb_app, Hh, Hl.
  assert (Hlog : List.filter is_log (apiview_events e) = apiview_events e).
  { unfold apiview_events. by destruct (spec_classify e). }
  rewrite Hlog. destruct (DEBUG env); cbn; by rewrite ?app_nil_r.
Qed.

Lemma zone_load_failure_is_classified_witness :
  (outcome (BaseAPIView.dispatch acme (request_of martian) ∅ (stale ∅))
   = inr (RetResponse
            (error_response "The required key does not exist."
               HTTP_400_BAD_REQUEST))
   /\ List.filter is_log
        (events (BaseAPIView.dispatch acme (request_of martian) ∅ (stale ∅)))
      = []
   /\ existsb is_handler
        (events (BaseAPIView.dispatch acme (request_of martian) ∅ (stale ∅)))
      = false
   /\ existsb is_locale_step
        (events (BaseAPIView.dispatch acme (request_of martian) ∅ (stale ∅)))
      = false
   /\ current_timezone
        (final (BaseAPIView.dispatch acme (request_of martian) ∅ (stale ∅)))
      = current_timezone (stale ∅))
  /\ (outcome (BaseAPIView.dispatch acme (request_of misfiled) ∅ (stale ∅))
      = inr (RetResponse
               (error_response "Something went wrong please try again later"
                  HTTP_500_INTERNAL_SERVER_ERROR))
      /\ List.filter is_log
           (events
              (BaseAPIView.dispatch acme (request_of misfiled) ∅ (stale ∅)))
         = [LogException (new_exc [ValueError])]
      /\ existsb is_handler
           (events
              (BaseAPIView.dispatch acme (request_of misfiled) ∅ (stale ∅)))
         = false
      /\ existsb is_locale_step
           (events
              (BaseAPIView.dispatch acme (request_of misfiled) ∅ (stale ∅)))
         = false
      /\ current_timezone
           (final
              (BaseAPIView.dispatch acme (request_of misfiled) ∅ (stale ∅)))
         = current_timezone (stale ∅)).
Proof.
  split.
  - apply (zone_load_failure_is_classified acme (request_of martian) ∅
             (stale ∅) ZoneInfoNotFound); reflexivity.
  - apply (zone_load_failure_is_classified acme (request_of misfiled) ∅
             (stale ∅) (new_exc [ValueError])); reflexivity.
Defined.

(** X7: on a request that passes the framework's [initial], whose
    principal is anonymous or has a zone name that [ZoneInfo] loads, and
    whose handler and finalization raise nothing, [BaseAPIView.dispatch]
    runs the locale step and then the handler, exactly once each: the
    handler gets the keyword arguments of the call, on a view that holds
    them and a thread whose zone is that of this request's principal (none
    for an anonymous one), whatever zone the thread had before, and its
    response is what the request is answered with. *)
Theorem apiview_dispatch_success env request kw st response :
  APIView_initial env request = inr tt ->
  (is_authenticated (user request) = true ->
   zoneinfo_load env (user_timezone (user request)) = inr tt) ->
  let zone :=
    if is_authenticated (user request)
    then Some (user_timezone (user request)) else None in
  handler env request kw (set_timezone zone (set_kwargs kw st))
  = inr response ->
  finalize_response env response = inr response ->
  outcome (BaseAPIView.dispatch env request kw st)
  = inr (RetResponse response)
  /\ List.filter (fun ev => is_locale_step ev || is_handler ev)
       (events (BaseAPIView.dispatch env request kw st))
     = [match zone with Some z => Activate z | None => Deactivate end;
        HandlerInvoked kw].
Proof.
  intros H1 H2 zone H3 H4.
  assert (Hinit : TimezoneMixin.initial env request (set_kwargs kw st)
                  = (inr tt, set_timezone zone (set_kwargs kw st),
                     [match zone with
                      | Some z => Activate z
                      | None => Deactivate
                      end])).
  { subst zone. unfold TimezoneMixin.initial, ZoneInfo, timezone_activate,
      timezone_deactivate. run. rewrite H1. cbn.
    destruct (is_authenticated (user request)); [|done].
    cbn. by rewrite H2. }
  assert (E : BaseAPIView.dispatch env request kw st
              = (inr (RetResponse response),
                 set_timezone zone (set_kwargs kw st),
                 [match zone with
                  | Some z => Activate z
                  | None => Deactivate
                  end; HandlerInvoked kw]
                 ++ if DEBUG env
                    then [PrintQueries (method request) (full_path request)]
                    else [])).
  { unfold BaseAPIView.dispatch, APIView_dispatch.
    rewrite try_bind, bind_run. cbn [modify prepend fst snd app].
    rewrite bind_run, try_bind, Hinit. cbn [prepend fst snd app].
    rewrite try_bind. cbn [emit prepend fst snd app].
    rewrite try_bind. cbn [gets id prepend fst snd app].
    unfold try_except at 1, lift at 1. rewrite H3.
    cbn [prepend fst snd app]. unfold lift at 1. rewrite H4.
    cbn [prepend fst snd app]. rewrite try_bind.
    destruct (DEBUG env); reflexivity. }
  rewrite E. unfold outcome, events. cbn [fst snd].
  rewrite List.filter_app. destruct zone, (DEBUG env); done.
Qed.

Lemma apiview_dispatch_success_witness :
  outcome (BaseAPIView.dispatch acme (request_of alice) ∅ (stale ∅))
  = inr (RetResponse ok_response)
  /\ List.filter (fun ev => is_locale_step ev || is_handler ev)
       (events (BaseAPIView.dispatch acme (request_of alice) ∅ (stale ∅)))
     = [Activate "Asia/Kolkata"; HandlerInvoked ∅].
Proof.
  apply (apiview_dispatch_success acme (request_of alice) ∅ (stale ∅)
           ok_response); reflexivity.
Defined.

(** ** Two runs of a pipeline compared *)

Lemma visible_app hidden tr1 tr2 :
  visible hidden (tr1 ++ tr2) = visible hidden tr1 ++ visible hidden tr2.
Proof. apply List.filter_app. Qed.

Lemma agree_refl hidden {A} (r : (Exc + A) * State * list Event) :
  agree hidden r r.
Proof. done. Qed.

Lemma agree_bind hidden {A B} (m1 m2 : M A) (k1 k2 : A -> M B) st :
  agree hidden (m1 st) (m2 st) ->
  (forall a st', agree hidden (k1 a st') (k2 a st')) ->
  agree hidden ((m1 ≫= k1) st) ((m2 ≫= k2) st).
Proof.
  intros (Ho & Hf & Hv) Hk. rewrite !bind_run.
  destruct (m1 st) as [[r1 s1] e1], (m2 st) as [[r2 s2] e2].
  unfold outcome, final, events in *. cbn in *. subst r2 s2.
  destruct r1 as [e|a]; [done|].
  destruct (Hk a s1) as (Ho' & Hf' & Hv').
  unfold agree, prepend, outcome, final, events, visible in *. cbn.
  rewrite !List.filter_app, Hv, Hv'. done.
Qed.

Lemma agree_try hidden {A} (m1 m2 : M A) (h1 h2 : Exc -> M A) st :
  agree hidden (m1 st) (m2 st) ->
  (forall e st', agree hidden (h1 e st') (h2 e st')) ->
  agree hidden (try_except m1 h1 st) (try_except m2 h2 st).
Proof.
  intros (Ho & Hf & Hv) Hh. unfold try_except.
  destruct (m1 st) as [[r1 s1] e1], (m2 st) as [[r2 s2] e2].
  unfold outcome, final, events in *. cbn in *. subst r2 s2.
  destruct r1 as [e|a]; [|done].
  destruct (Hh e s1) as (Ho' & Hf' & Hv').
  destruct (h1 e s1) as [[? ?] ?], (h2 e s1) as [[? ?] ?].
  unfold agree, outcome, final, events, visible in *. cbn in *.
  rewrite !List.filter_app, Hv, Hv'. done.
Qed.


(** The framework's [dispatch] replaces [self.kwargs] first, so the rest of
    the pipeline sees of the state it starts from the thread's zone
    only. *)
Lemma viewset_tail_state env request kw st1 st2 :
  current_timezone st1 = current_timezone st2 ->
  viewset_tail env request kw st1 = viewset_tail env request kw st2.
Proof.
  intros Htz. unfold viewset_tail, APIView_dispatch.
  rewrite !try_bind, !bind_run. cbn [modify].
  replace (set_kwargs kw st1) with (set_kwargs kw st2);
    [reflexivity|]. unfold set_kwargs. by rewrite Htz.
Qed.

(** The step for [issue_id] in front of the rest of the body changes
    nothing. *)
Lemma viewset_issue_step env request kw st :
  try_except
    (issue_id ← gets (fun st => dict_get (kwargs st) "issue_id");
     (if truthy issue_id then
        resolved ← BaseViewSet.get_issue_id issue_id;
        BaseViewSet.set_item "issue_id" resolved
      else mret tt);;
     response ← APIView_dispatch env (TimezoneMixin.initial env)
                  (BaseViewSet.handle_exception env) request kw;
     when (DEBUG env)
       (emit (PrintQueries (method request) (full_path request)));;
     mret (RetResponse response))
    (fun exc =>
       response ← BaseViewSet.handle_exception env exc;
       mret (RetException exc)) st
  = viewset_tail env request kw st.
Proof.
  rewrite try_bind. cbn [gets]. rewrite try_bind.
  destruct (truthy (dict_get (kwargs st) "issue_id")).
  - rewrite bind_run, get_issue_id_run. unfold BaseViewSet.set_item.
    cbn [modify prepend fst snd app].
    fold (viewset_tail env request kw).
    rewrite (viewset_tail_state env request kw _ st) by done.
    by destruct (viewset_tail env request kw st) as [[? ?] ?].
  - cbn [mret M_ret ret prepend fst snd app].
    fold (viewset_tail env request kw).
    by destruct (viewset_tail env request kw st) as [[? ?] ?].
Qed.

(** [BaseViewSet.dispatch] in one equation: the project key is resolved
    when it is non-empty; a failure goes to the [except] branch, and
    otherwise the rest runs as if nothing had been resolved. *)
Lemma viewset_dispatch_run env request kw st :
  BaseViewSet.dispatch env request kw st =
  if truthy (dict_get (kwargs st) "project_id") then
    prepend
      (events (BaseViewSet.get_project_id env
                 (dict_get (kwargs st) "project_id") st))
      match outcome (BaseViewSet.get_project_id env
                       (dict_get (kwargs st) "project_id") st) with
      | inl e =>
          (response ← BaseViewSet.handle_exception env e;
           mret (RetException e)) st
      | inr _ => viewset_tail env request kw st
      end
  else viewset_tail env request kw st.
Proof.
  unfold BaseViewSet.dispatch. rewrite try_bind. cbn [gets].
  rewrite try_bind.
  destruct (truthy (dict_get (kwargs st) "project_id")).
  - rewrite bind_run.
    destruct (get_project_id_quiet env (dict_get (kwargs st) "project_id") st)
      as (r & ev & -> & _).
    unfold events, outcome. cbn [fst snd].
    destruct r as [e|v].
    + reflexivity.
    + unfold BaseViewSet.set_item. cbn [modify prepend fst snd app].
      rewrite viewset_issue_step.
      rewrite (viewset_tail_state env request kw _ st) by done.
      by rewrite app_nil_r.
  - cbn [mret M_ret ret prepend fst snd app]. rewrite viewset_issue_step.
    by destruct (viewset_tail env request kw st) as [[? ?] ?].
Qed.

Lemma pipeline_tail_agree hidden env b1 b2 h1 h2 request kw st :
  (b1 = b2 \/ forall m p, hidden (PrintQueries m p) = true) ->
  (forall e st', agree hidden (h1 e st') (h2 e st')) ->
  agree hidden (pipeline_tail env b1 h1 request kw st)
    (pipeline_tail env b2 h2 request kw st).
Proof.
  intros Hb Hh. unfold pipeline_tail.
  apply agree_try.
  - apply agree_bind.
    + unfold APIView_dispatch.
      apply agree_bind; [apply agree_refl|]. intros [] st1.
      apply agree_bind; [|intros; apply agree_refl].
      apply agree_try; [apply agree_refl | apply Hh].
    + intros response st1.
      apply agree_bind; [|intros; apply agree_refl].
      destruct Hb as [->|Hb]; [apply agree_refl|].
      unfold agree, outcome, final, events, visible.
      destruct b1, b2; cbn; rewrite ?Hb; done.
  - intros e st1. apply agree_bind; [apply Hh|]. intros; apply agree_refl.
Qed.


Lemma handlers_agree env e st :
  agree (fun ev => is_console ev || is_log ev || is_query ev)
    (BaseViewSet.handle_exception env e st)
    (BaseAPIView.handle_exception env e st).
Proof.
  rewrite viewset_handle_exception_run, apiview_handle_exception_run.
  destruct (APIView_handle_exception env e) as [e'|r]; [|done].
  unfold agree, outcome, final, events, visible, viewset_events,
    apiview_events. cbn.
  by destruct (DEBUG env), (spec_classify e').
Qed.


(** X9: as long as the project key resolves, or there is none, the two
    pipelines differ in console lines, log calls and the store query only:
    [BaseViewSet.dispatch] hands back what [BaseAPIView.dispatch] hands
    back and leaves the same state, [self.kwargs] included, with the same
    locale steps and handler invocations. *)
Theorem viewset_dispatch_agrees_with_apiview env request kw st :
  (truthy (dict_get (kwargs st) "project_id") = true ->
   exists resolved,
     outcome (BaseViewSet.get_project_id env
                (dict_get (kwargs st) "project_id") st) = inr resolved) ->
  agree (fun ev => is_console ev || is_log ev || is_query ev)
    (BaseViewSet.dispatch env request kw st)
    (BaseAPIView.dispatch env request kw st).
Proof.
  intros Hres. rewrite viewset_dispatch_run.
  assert (Htail : agree (fun ev => is_console ev || is_log ev || is_query ev)
            (viewset_tail env request kw st)
            (BaseAPIView.dispatch env request kw st)).
  { apply (pipeline_tail_agree _ env (DEBUG env) (DEBUG env));
      [by left | apply handlers_agree]. }
  destruct (truthy _); [|exact Htail].
  destruct (Hres eq_refl) as [v Hv]. rewrite Hv.
  destruct (get_project_id_effects env (dict_get (kwargs st) "project_id") st)
    as (_ & Hev & _).
  destruct Htail as (Ho & Hf & Hvis).
  unfold agree, prepend, outcome, final, events, visible in *.
  cbn [fst snd]. rewrite List.filter_app, Hvis.
  destruct Hev as [-> | ->]; done.
Qed.

Lemma viewset_dispatch_agrees_with_apiview_witness :
  agree (fun ev => is_console ev || is_log ev || is_query ev)
    (BaseViewSet.dispatch acme (request_of alice) (path_kwargs "acme" "ENG")
       (fresh (path_kwargs "acme" "ENG")))
    (BaseAPIView.dispatch acme (request_of alice) (path_kwargs "acme" "ENG")
       (fresh (path_kwargs "acme" "ENG"))).
Proof.
  apply viewset_dispatch_agrees_with_apiview.
  intros _. exists (PyStr uuid_1). vm_compute. reflexivity.
Defined.

(** ** [filter_queryset] *)

Lemma filter_queryset_run (Row : Type)
    (backends : list (Request -> State -> list Row -> Exc + list Row))
    request : forall queryset st,
  BaseAPIView.filter_queryset Row backends request queryset st
  = (apply_backends backends request st queryset, st, []).
Proof.
  induction backends as [|b backends IH]; intros queryset st; [done|].
  cbn [BaseAPIView.filter_queryset apply_backends].
  rewrite !bind_run. cbn [gets id prepend fst snd app].
  rewrite bind_run. unfold lift at 1.
  destruct (b request st queryset) as [e|filtered]; [done|].
  by rewrite IH.
Qed.

Lemma apply_backends_app {Row : Type}
    (b1 b2 : list (Request -> State -> list Row -> Exc + list Row))
    request view : forall queryset,
  apply_backends (b1 ++ b2) request view queryset
  = match apply_backends b1 request view queryset with
    | inl e => inl e
    | inr filtered => apply_backends b2 request view filtered
    end.
Proof.
  induction b1 as [|b b1 IH]; intros queryset; [done|].
  cbn. destruct (b request view queryset); [done|]. apply IH.
Qed.

(** X12: [filter_queryset] is the composition of its backends in the order
    of [filter_backends]: with no backend it returns the query set it was
    given, with one backend it returns (or raises) what that backend does
    with the request, the query set and the view, and filtering with two
    lists of backends one after the other is filtering with their
    concatenation; it stops at the first backend that raises, and it
    neither changes the view nor calls any other collaborator. *)
Theorem filter_queryset_composes (Row : Type)
    (b1 b2 : list (Request -> State -> list Row -> Exc + list Row))
    request queryset st :
  BaseAPIView.filter_queryset Row [] request queryset st
  = (inr queryset, st, [])
  /\ (forall backend,
        BaseAPIView.filter_queryset Row [backend] request queryset st
        = (backend request st queryset, st, []))
  /\ BaseAPIView.filter_queryset Row (b1 ++ b2) request queryset st
     = (filtered ← BaseAPIView.filter_queryset Row b1 request queryset;
        BaseAPIView.filter_queryset Row b2 request filtered) st
  /\ final (BaseAPIView.filter_queryset Row (b1 ++ b2) request queryset st)
     = st
  /\ events (BaseAPIView.filter_queryset Row (b1 ++ b2) request queryset st)
     = []
  /\ (forall e,
        outcome (BaseAPIView.filter_queryset Row b1 request queryset st)
        = inl e ->
        outcome (BaseAPIView.filter_queryset Row (b1 ++ b2) request
                   queryset st) = inl e).
Proof.
  split; [done|]. split.
  { intros backend. rewrite filter_queryset_run. cbn.
    by destruct (backend request st queryset). }
  rewrite bind_run, !filter_queryset_run, apply_backends_app.
  unfold outcome, final, events. cbn [fst snd].
  destruct (apply_backends b1 request st queryset) as [e|filtered].
  - repeat split. by intros ? [= <-].
  - rewrite filter_queryset_run. repeat split. by intros ? [=].
Qed.

(** X13: when every backend only removes rows, so does [filter_queryset]:
    what it returns is a sub-list of the query set it was given, in the
    same order. *)
Theorem filter_queryset_only_removes_rows (Row : Type)
    (backends : list (Request -> State -> list Row -> Exc + list Row))
    request queryset st filtered :
  Forall restricting backends ->
  outcome (BaseAPIView.filter_queryset Row backends request queryset st)
  = inr filtered ->
  sublist filtered queryset.
Proof.
  intros Hall. rewrite filter_queryset_run. unfold outcome. cbn [fst].
  revert queryset. induction Hall as [|b backends Hb _ IH]; intros queryset.
  - by intros [= <-].
  - cbn. destruct (b request st queryset) as [e|q1] eqn:Hq; [done|].
    intros H. etransitivity; [by apply IH|]. by eapply Hb.
Qed.

Lemma sublist_List_filter {A} (f : A -> bool) l : sublist (List.filter f l) l.
Proof.
  induction l as [|x l IH]; [done|]. cbn.
  destruct (f x); [by apply sublist_skip | by apply sublist_cons].
Qed.

Lemma filter_queryset_only_removes_rows_witness :
  sublist [4; 6] [1; 2; 3; 4; 5; 6].
Proof.
  apply (filter_queryset_only_removes_rows nat [keep_even; drop_first]
           (request_of alice) [1; 2; 3; 4; 5; 6]%nat (fresh ∅)).
  - repeat constructor.
    + intros ? ? q f [= <-]. apply sublist_List_filter.
    + intros ? ? q f [= <-]. destruct q; [done|]. by apply sublist_cons.
  - reflexivity.
Defined.

(** ** More on [fields] and [expand] *)

Lemma parsed_entries raw entries :
  null_if_empty
    (List.filter nonempty (map chars_str (split "," (str_chars raw))))
  = Some entries ->
  entries <> []
  /\ List.filter nonempty entries = entries
  /\ forallb comma_free (map str_chars entries) = true.
Proof.
  destruct (join_split (str_chars raw)) as (_ & Hfree & _).
  revert Hfree. generalize (split "," (str_chars raw)). intros pieces Hfree.
  unfold null_if_empty.
  destruct (List.filter nonempty (map chars_str pieces)) as [|e es] eqn:Hf;
    [done|].
  intros [= <-]. split; [done|]. rewrite <- Hf. split.
  - clear. induction (map chars_str pieces) as [|x l IH]; [done|].
    cbn. destruct (nonempty x) eqn:Hx; [|done]. cbn. by rewrite Hx, IH.
  - clear Hf. induction pieces as [|w pieces IH]; [done|].
    cbn in Hfree. apply andb_true_iff in Hfree as [Hw Hrest].
    cbn. destruct (nonempty (chars_str w)); [|by apply IH].
    cbn. by rewrite str_chars_of_chars, Hw, IH.
Qed.

(** X14: what [fields] or [expand] returns survives a round trip: its
    entries are non-empty and free of commas, and a request whose
    parameter is these entries joined by commas is parsed to the same
    list. *)
Theorem fields_round_trip request entries :
  BaseViewSet.fields request = Some entries
  \/ BaseViewSet.expand request = Some entries ->
  entries <> []
  /\ Forall (fun entry => entry <> "" /\ comma_free (str_chars entry) = true)
       entries
  /\ (forall request',
        BaseViewSet.GET_get request' "fields" = comma_joined entries ->
        BaseViewSet.fields request' = Some entries)
  /\ (forall request',
        BaseViewSet.GET_get request' "expand" = comma_joined entries ->
        BaseViewSet.expand request' = Some entries).
Proof.
  destruct (fields_run request) as (Hf & He & _).
  intros H.
  assert (Hparsed : entries <> []
            /\ List.filter nonempty entries = entries
            /\ forallb comma_free (map str_chars entries) = true).
  { destruct H as [H|H]; [rewrite Hf in H | rewrite He in H];
      by apply parsed_entries in H. }
  destruct Hparsed as (Hne & Hkeep & Hfree).
  split; [done|]. split.
  { apply List.Forall_forall. intros entry Hin. split.
    - rewrite <- Hkeep in Hin. apply filter_In in Hin as [_ Hn].
      unfold nonempty in Hn. intros ->. done.
    - apply forallb_holds in Hfree. rewrite Forall_map in Hfree.
      by apply (proj1 (List.Forall_forall _ _) Hfree). }
  split; intros request' Hraw;
    destruct (fields_run request') as (Hf' & He' & _).
  - rewrite Hf', Hraw, comma_joined_split, Hkeep by done.
    by destruct entries.
  - rewrite He', Hraw, comma_joined_split, Hkeep by done.
    by destruct entries.
Qed.

Lemma fields_round_trip_witness :
  ["a"; "b"; "c"] <> []
  /\ Forall (fun entry => entry <> "" /\ comma_free (str_chars entry) = true)
       ["a"; "b"; "c"]
  /\ (forall request',
        BaseViewSet.GET_get request' "fields" = comma_joined ["a"; "b"; "c"] ->
        BaseViewSet.fields request' = Some ["a"; "b"; "c"])
  /\ (forall request',
        BaseViewSet.GET_get request' "expand" = comma_joined ["a"; "b"; "c"] ->
        BaseViewSet.expand request' = Some ["a"; "b"; "c"]).
Proof.
  apply (fields_round_trip (request_of alice)). left. reflexivity.
Defined.

Lemma fields_of_raw request1 request2 :
  (BaseViewSet.GET_get request1 "fields" = BaseViewSet.GET_get request2 "fields"
   -> BaseViewSet.fields request1 = BaseViewSet.fields request2)
  /\ (BaseViewSet.GET_get request1 "expand"
      = BaseViewSet.GET_get request2 "expand"
      -> BaseViewSet.expand request1 = BaseViewSet.expand request2).
Proof.
  destruct (fields_run request1) as (-> & -> & _).
  destruct (fields_run request2) as (-> & -> & _).
  split; by intros ->.
Qed.

(** X15: [fields] reads nothing but the last value given for the key
    [fields]: setting any other parameter leaves it as it is, earlier
    values of a repeated [fields] parameter are ignored, and a missing key
    or one without a value gives [None]; [expand] is independent of
    [fields] in the same way. *)
Theorem fields_reads_last_value_of_its_key request :
  (forall key values, key <> "fields" ->
     BaseViewSet.fields (with_GET request (<[key := values]> (GET request)))
     = BaseViewSet.fields request)
  /\ (forall values,
        BaseViewSet.expand
          (with_GET request (<["fields" := values]> (GET request)))
        = BaseViewSet.expand request)
  /\ (forall earlier value,
        BaseViewSet.fields
          (with_GET request (<["fields" := earlier ++ [value]]> (GET request)))
        = BaseViewSet.fields
            (with_GET request {[ "fields" := [value] ]}))
  /\ BaseViewSet.fields (with_GET request (delete "fields" (GET request)))
     = None
  /\ BaseViewSet.fields (with_GET request (<["fields" := []]> (GET request)))
     = None.
Proof.
  split; [|split; [|split; [|split]]].
  - intros key values Hkey. apply fields_of_raw.
    unfold BaseViewSet.GET_get. cbn [GET with_GET].
    by rewrite lookup_insert_ne.
  - intros values. apply fields_of_raw.
    unfold BaseViewSet.GET_get. cbn [GET with_GET].
    by rewrite lookup_insert_ne.
  - intros earlier value. apply fields_of_raw.
    unfold BaseViewSet.GET_get. cbn [GET with_GET].
    rewrite lookup_insert_eq, lookup_singleton_eq, last_last. done.
  - destruct (fields_run (with_GET request (delete "fields" (GET request))))
      as (-> & _).
    unfold BaseViewSet.GET_get. cbn [GET with_GET].
    by rewrite lookup_delete_eq.
  - destruct (fields_run (with_GET request (<["fields" := []]> (GET request))))
      as (-> & _).
    unfold BaseViewSet.GET_get. cbn [GET with_GET].
    by rewrite lookup_insert_eq.
Qed.

(** ** Keys that pass [is_uuid] without being UUID texts *)

Lemma UUID_prefixed h :
  String.length h = 30%nat -> forallb is_hex (str_chars h) = true ->
  is_Some (UUID ("0x" +:+ h)).
Proof.
  intros Hlen Hhex. rewrite UUID_unfold, str_chars_app.
  change (str_chars "0x" ++ str_chars h)
    with ("0"%char :: "x"%char :: str_chars h).
  rewrite <- length_str_chars in Hlen.
  apply forallb_holds in Hhex.
  revert Hlen Hhex. generalize (str_chars h). intros hs Hlen Hhex.
  assert (Hplain : Forall (fun c => Ascii.eqb "u" c = false
                             /\ Ascii.eqb "-" c = false
                             /\ char_in c (str_chars "{}") = false)
                     ("0"%char :: "x"%char :: hs)).
  { repeat (constructor; [done|]).
    eapply Forall_impl; [exact Hhex|]. intros c Hc.
    destruct (is_hex_plain c Hc) as (Hcm & _ & _ & _ & _ & Hcu & Hcb & _).
    by rewrite Ascii.eqb_sym. }
  assert (Hu : Forall (fun c => Ascii.eqb "u" c = false)
                 ("0"%char :: "x"%char :: hs))
    by (eapply Forall_impl; [exact Hplain|]; by intros c (? & ? & ?)).
  assert (Hm : Forall (fun c => Ascii.eqb "-" c = false)
                 ("0"%char :: "x"%char :: hs))
    by (eapply Forall_impl; [exact Hplain|]; by intros c (? & ? & ?)).
  assert (Hb : Forall (fun c => char_in c (str_chars "{}") = false)
                 ("0"%char :: "x"%char :: hs))
    by (eapply Forall_impl; [exact Hplain|]; by intros c (? & ? & ?)).
  change (str_chars "urn:") with ("u"%char :: str_chars "rn:").
  change (str_chars "uuid:") with ("u"%char :: str_chars "uid:").
  change (str_chars "-") with ["-"%char].
  unfold replace.
  rewrite (replace_scan_absent "u" (str_chars "rn:") [] _ Hu).
  rewrite (replace_scan_absent "u" (str_chars "uid:") [] _ Hu).
  rewrite (strip_plain _ _ Hb).
  rewrite (replace_scan_absent "-" [] [] _ Hm).
  unfold parse32. cbn [length]. rewrite Hlen. cbn [Nat.eqb negb].
  destruct hs as [|u r]; [done|].
  inversion Hhex as [|? ? Hux Hr]; subst.
  destruct (is_hex_plain u Hux) as (_ & Hus & _).
  assert (Hne : u :: r <> []) by discriminate.
  destruct (hex_digits_all_hex (u :: r) false 0%Z Hhex ltac:(lia)
              (or_intror Hne)) as (v & Hv & Hbound).
  unfold int16. cbn [skip_space]. change (isspace "0") with false.
  cbn iota. change (Ascii.eqb "0" "+") with false.
  change (Ascii.eqb "0" "-") with false. cbn iota.
  change (Ascii.eqb "0" "0" && (Ascii.eqb "x" "x" || Ascii.eqb "x" "X"))
    with true. cbn iota. rewrite Hus. cbn [startswith].
  rewrite Ascii.eqb_sym, Hus. cbn [andb]. rewrite Hv. cbn [forallb].
  rewrite Hlen in Hbound.
  replace ((0 <=? 1 * v)%Z && (1 * v <? 2 ^ 128)%Z) with true; [by eexists|].
  symmetry. apply andb_true_iff.
  split; [apply Z.leb_le|apply Z.ltb_lt]; [lia|].
  change (16 ^ Z.of_nat 30)%Z with (2 ^ 120)%Z in Hbound. lia.
Qed.

(** X16: [is_uuid] is wider than the textual forms of a UUID: a key made of
    [0x] and 30 hexadecimal digits passes it, because the parser hands the
    32 characters to [int(_, 16)], so [get_project_id] returns such a key
    unchanged and never looks it up as an alias. *)
Theorem prefixed_digits_pass_is_uuid env st digits :
  String.length digits = 30%nat ->
  forallb is_hex (str_chars digits) = true ->
  BaseViewSet.is_uuid (PyStr ("0x" +:+ digits)) = true
  /\ BaseViewSet.get_project_id env (PyStr ("0x" +:+ digits)) st
     = (inr (PyStr ("0x" +:+ digits)), st, []).
Proof.
  intros Hlen Hhex.
  pose proof (proj2 (is_uuid_parsed _) (UUID_prefixed _ Hlen Hhex)) as H.
  split; [exact H|]. apply get_project_id_skip. rewrite H.
  apply andb_false_r.
Qed.

Lemma prefixed_digits_pass_is_uuid_witness :
  BaseViewSet.is_uuid (PyStr ("0x" +:+ "0123456789abcdefABCDEF01234567"))
  = true
  /\ BaseViewSet.get_project_id acme
       (PyStr ("0x" +:+ "0123456789abcdefABCDEF01234567"))
       (fresh (path_kwargs "acme" "ENG"))
     = (inr (PyStr ("0x" +:+ "0123456789abcdefABCDEF01234567")),
        fresh (path_kwargs "acme" "ENG"), []).
Proof.
  apply prefixed_digits_pass_is_uuid; vm_compute; reflexivity.
Defined.

(** ** Resolution comes first *)

Lemma viewset_dispatch_alias env request kw st key :
  dict_get (kwargs st) "project_id" = PyStr key ->
  key <> "" ->
  BaseViewSet.is_uuid (PyStr key) = false ->
  BaseViewSet.dispatch env request kw st
  = prepend [Query (dict_get (kwargs st) "slug") key]
      match head (List.filter (matches (dict_get (kwargs st) "slug") key)
                    (ProjectIdentifier_objects env)) with
      | Some _ => viewset_tail env request kw st
      | None =>
          (response ← BaseViewSet.handle_exception env
                        (new_exc [ObjectDoesNotExist]);
           mret (RetException (new_exc [ObjectDoesNotExist]))) st
      end.
Proof.
  intros Hkey Hne Hnot.
  assert (Hcond : truthy (PyStr key)
                  && negb (BaseViewSet.is_uuid (PyStr key)) = true).
  { rewrite Hnot. cbn. by destruct (String.eqb_spec key ""). }
  assert (Htruthy : truthy (PyStr key) = true)
    by (by apply andb_true_iff in Hcond as [? _]).
  rewrite viewset_dispatch_run, Hkey, Htruthy.
  rewrite (get_project_id_query _ _ _ Hcond).
  unfold events, outcome. cbn [fst snd]. by destruct (head _).
Qed.

(** X17: the alias is looked up before anything else happens to the
    request: for a non-empty project key that is not a UUID the first event
    of [BaseViewSet.dispatch] is the store query, whoever the principal
    is and whatever the framework's [initial] would say about the
    request. *)
Theorem alias_is_queried_before_any_check env request kw st key :
  dict_get (kwargs st) "project_id" = PyStr key ->
  key <> "" ->
  BaseViewSet.is_uuid (PyStr key) = false ->
  exists rest,
    events (BaseViewSet.dispatch env request kw st)
    = Query (dict_get (kwargs st) "slug") key :: rest.
Proof.
  intros Hkey Hne Hnot.
  rewrite (viewset_dispatch_alias _ _ _ _ _ Hkey Hne Hnot).
  unfold prepend, events. cbn [fst snd app]. by eexists.
Qed.

Lemma alias_is_queried_before_any_check_witness :
  exists rest,
    events (BaseViewSet.dispatch acme (request_of anonymous)
              (path_kwargs "acme" "ENG") (fresh (path_kwargs "acme" "ENG")))
    = Query (dict_get (kwargs (fresh (path_kwargs "acme" "ENG"))) "slug")
        "ENG" :: rest.
Proof.
  apply (alias_is_queried_before_any_check acme (request_of anonymous)
           (path_kwargs "acme" "ENG") (fresh (path_kwargs "acme" "ENG")) "ENG");
    [reflexivity | discriminate | vm_compute; reflexivity].
Defined.

(** X18: for a non-empty project key that is not a UUID and has no alias
    under the tenant, [BaseViewSet.dispatch] hands back the
    [ObjectDoesNotExist] object, leaves the view and the thread's zone as
    they were, invokes no handler and no locale step, and apart from
    console lines and log calls makes the one store query only. *)
Theorem unresolved_key_ends_the_request env request kw st key :
  dict_get (kwargs st) "project_id" = PyStr key ->
  key <> "" ->
  BaseViewSet.is_uuid (PyStr key) = false ->
  List.filter (matches (dict_get (kwargs st) "slug") key)
    (ProjectIdentifier_objects env) = [] ->
  outcome (BaseViewSet.dispatch env request kw st)
  = inr (RetException (new_exc [ObjectDoesNotExist]))
  /\ final (BaseViewSet.dispatch env request kw st) = st
  /\ visible (fun ev => is_console ev || is_log ev)
       (events (BaseViewSet.dispatch env request kw st))
     = [Query (dict_get (kwargs st) "slug") key].
Proof.
  intros Hkey Hne Hnot Hnone.
  rewrite (viewset_dispatch_alias _ _ _ _ _ Hkey Hne Hnot), Hnone.
  cbn [head]. rewrite bind_run, viewset_handle_exception_run.
  unfold prepend, outcome, final, events, visible.
  destruct (APIView_handle_exception env _) as [e'|r]; cbn; [|done].
  unfold viewset_events.
  by destruct (DEBUG env), (spec_table (spec_classify e')).2.
Qed.

Lemma unresolved_key_ends_the_request_witness :
  outcome (BaseViewSet.dispatch acme (request_of alice)
             (path_kwargs "other" "ENG") (stale (path_kwargs "other" "ENG")))
  = inr (RetException (new_exc [ObjectDoesNotExist]))
  /\ final (BaseViewSet.dispatch acme (request_of alice)
              (path_kwargs "other" "ENG")
              (stale (path_kwargs "other" "ENG")))
     = stale (path_kwargs "other" "ENG")
  /\ visible (fun ev => is_console ev || is_log ev)
       (events (BaseViewSet.dispatch acme (request_of alice)
                  (path_kwargs "other" "ENG")
                  (stale (path_kwargs "other" "ENG"))))
     = [Query (dict_get (kwargs (stale (path_kwargs "other" "ENG"))) "slug")
          "ENG"].
Proof.
  apply unresolved_key_ends_the_request;
    [reflexivity | discriminate | vm_compute; reflexivity | reflexivity].
Defined.

(** X19: a request that the framework's [initial] refuses, as it refuses an
    unauthenticated one under [IsAuthenticated], reaches neither branch of
    the locale step in [BaseAPIView.dispatch]: no zone is activated or
    deactivated, the handler is not invoked, and the zone found on the
    thread is the zone left on it. *)
Theorem refused_request_keeps_previous_zone env request kw st e :
  APIView_initial env request = inl e ->
  existsb is_locale_step (events (BaseAPIView.dispatch env request kw st))
  = false
  /\ existsb is_handler (events (BaseAPIView.dispatch env request kw st))
     = false
  /\ current_timezone (final (BaseAPIView.dispatch env request kw st))
     = current_timezone st.
Proof.
  intros Hinit.
  assert (Hi : TimezoneMixin.initial env request (set_kwargs kw st)
               = (inl e, set_kwargs kw st, [])).
  { unfold TimezoneMixin.initial. run. by rewrite Hinit. }
  assert (Hnone : existsb is_locale_step
                    (events (BaseAPIView.dispatch env request kw st))
                  = false).
  { unfold BaseAPIView.dispatch, APIView_dispatch.
    rewrite try_bind, bind_run. cbn [modify prepend fst snd app].
    rewrite bind_run, try_bind, Hi.
    destruct (apiview_classifier env e (set_kwargs kw st))
      as (resp & tr & -> & Hq).
    destruct (quiet_no_steps _ Hq) as (_ & Hl & _).
    unfold lift. cbn [prepend fst snd app].
    destruct (finalize_response env resp) as [e'|resp'].
    - rewrite bind_run.
      destruct (apiview_classifier env e' (set_kwargs kw st))
        as (resp2 & tr2 & -> & Hq2).
      destruct (quiet_no_steps _ Hq2) as (_ & Hl2 & _).
      unfold prepend, events. cbn [fst snd mret M_ret ret].
      by rewrite !app_nil_r, !existsb_app, Hl, Hl2.
    - rewrite try_bind. unfold prepend, events.
      destruct (DEBUG env); cbn; by rewrite ?app_nil_r, ?existsb_app, ?Hl. }
  split; [exact Hnone|].
  by apply (apiview_dispatch_ordered env request kw st).
Qed.

Lemma refused_request_keeps_previous_zone_witness :
  existsb is_locale_step
    (events (BaseAPIView.dispatch acme (request_of anonymous) ∅ (stale ∅)))
  = false
  /\ existsb is_handler
       (events (BaseAPIView.dispatch acme (request_of anonymous) ∅ (stale ∅)))
     = false
  /\ current_timezone
       (final (BaseAPIView.dispatch acme (request_of anonymous) ∅ (stale ∅)))
     = current_timezone (stale ∅).
Proof.
  apply (refused_request_keeps_previous_zone acme (request_of anonymous) ∅
           (stale ∅) NotAuthenticated).
  reflexivity.
Defined.
